(** * youtube_download: a shallow embedding of the Picard plugin

    The plugin (src/youtube_download.py) resolves "artist title" to a
    YouTube Music hit, asks a conversion service for a 192 kbps MP3,
    polls the conversion task, downloads the result and hands the file
    to the tagger.  All of it is effectful Python: HTTP calls, a search
    library, sleeping, printing, a file write, and exceptions that either
    propagate or are caught by the single [try]/[except] of
    [search_and_download].

    The embedding keeps that shape.  Python values decoded from JSON are
    an inductive type, the outside world is a record of oracles indexed by
    "how many calls of this kind were made before", and every function of
    the source is a computation in a state-and-exception monad whose state
    is the trace of effects performed so far plus the file system. *)

From Stdlib Require Import ZArith Lia Bool Ascii.
From stdpp Require Import base list strings gmap pretty.

Set Warnings "-register-all".
Open Scope string_scope.
Open Scope Z_scope.
Open Scope list_scope.

(** ** Python values *)

(** What [response.json()] and [ytmusic.search] hand back: [None], booleans,
    integers, strings, lists and dictionaries (insertion-ordered, hence an
    association list). *)
Inductive pyval : Type :=
| VNone
| VBool (b : bool)
| VInt (n : Z)
| VStr (s : string)
| VList (items : list pyval)
| VDict (entries : list (string * pyval)).

Definition bytes := list Byte.byte.

(** Python truthiness, as used by [not task_id], [not download_url],
    [not video_id]. *)
Definition py_truthy (v : pyval) : bool :=
  match v with
  | VNone => false
  | VBool b => b
  | VInt n => negb (n =? 0)
  | VStr s => negb (String.eqb s "")
  | VList items => match items with [] => false | _ => true end
  | VDict entries => match entries with [] => false | _ => true end
  end.

(** [v == n] for an [int] [n]: integers compare by value and [bool] is a
    subclass of [int] ([True == 1]); every other JSON value differs. *)
Definition py_eq_int (v : pyval) (n : Z) : bool :=
  match v with
  | VInt m => m =? n
  | VBool b => (if b then 1 else 0) =? n
  | _ => false
  end.

(** [v == s] for a [str] [s]. *)
Definition py_eq_str (v : pyval) (s : string) : bool :=
  match v with
  | VStr t => String.eqb t s
  | _ => false
  end.

Fixpoint dict_lookup (k : string) (entries : list (string * pyval)) : option pyval :=
  match entries with
  | [] => None
  | (k', v) :: rest => if String.eqb k k' then Some v else dict_lookup k rest
  end.

(** [entries.get(k, default)] on the entries of a dict *)
Definition dict_get (k : string) (default : pyval) (entries : list (string * pyval)) : pyval :=
  match dict_lookup k entries with
  | Some x => x
  | None => default
  end.

Definition py_type_name (v : pyval) : string :=
  match v with
  | VNone => "NoneType"
  | VBool _ => "bool"
  | VInt _ => "int"
  | VStr _ => "str"
  | VList _ => "list"
  | VDict _ => "dict"
  end.

Fixpoint string_chars (s : string) : list pyval :=
  match s with
  | EmptyString => []
  | String c rest => VStr (String c EmptyString) :: string_chars rest
  end.

(** ** Exceptions *)

Inductive ExnClass : Type :=
| HTTPError
| ConnectionError
| JSONDecodeError
| AttributeError
| KeyError
| TypeError
| OSError
| OtherException.

(** An instance of [Exception]; [exn_msg] is what [str(e)] gives. *)
Record PyExn : Type := mkExn { exn_class : ExnClass; exn_msg : string }.

(** ** The outside world *)

(** A [requests.Response]. [json_body] is [None] when the body is not JSON
    (then [response.json()] raises). *)
Record Response : Type := mkResponse {
  status_code : Z;
  reason : string;
  json_body : option pyval;
  content : bytes
}.

(** [Response.ok] and [Response.raise_for_status] of the requests library:
    an [HTTPError] is raised for 4xx and 5xx, and [ok] is "it does not
    raise". *)
Definition raise_for_status (url : string) (r : Response) : option PyExn :=
  if (400 <=? status_code r) && (status_code r <? 500) then
    Some (mkExn HTTPError
            (pretty (status_code r) +:+ " Client Error: " +:+ reason r +:+ " for url: " +:+ url))
  else if (500 <=? status_code r) && (status_code r <? 600) then
    Some (mkExn HTTPError
            (pretty (status_code r) +:+ " Server Error: " +:+ reason r +:+ " for url: " +:+ url))
  else None.

Definition response_ok (url : string) (r : Response) : bool :=
  match raise_for_status url r with
  | Some _ => false
  | None => true
  end.

(** How [with open(filename, "wb") as f: f.write(data)] can end: the data
    is on disk; [open] raised and the file system is untouched; or [open]
    created or truncated the file and the write (or the closing flush)
    raised after [written] bytes had reached it. *)
Inductive WriteOutcome : Type :=
| Written
| OpenFails (e : PyExn)
| WriteFails (e : PyExn) (written : nat).

(** Everything the plugin does to the world, in order; [EvWrite] is the
    attempt to write [data] to [filename], whatever comes of it. *)
Inductive Event : Type :=
| EvYTMusic
| EvSearch (query filter : string)
| EvPost (url : string) (data : pyval)
| EvGet (url : pyval)
| EvWrite (filename : string) (data : bytes)
| EvSleep (seconds : Z)
| EvPrint (line : string)
| EvMkdtemp
| EvAddFiles (files : list string).

Definition is_post (e : Event) : bool :=
  match e with EvPost _ _ => true | _ => false end.
Definition is_get (e : Event) : bool :=
  match e with EvGet _ => true | _ => false end.
Definition is_write (e : Event) : bool :=
  match e with EvWrite _ _ => true | _ => false end.
Definition is_sleep (e : Event) : bool :=
  match e with EvSleep _ => true | _ => false end.
Definition is_ytmusic (e : Event) : bool :=
  match e with EvYTMusic => true | _ => false end.
Definition is_search (e : Event) : bool :=
  match e with EvSearch _ _ => true | _ => false end.
Definition is_mkdtemp (e : Event) : bool :=
  match e with EvMkdtemp => true | _ => false end.

Fixpoint count_events (p : Event -> bool) (tr : list Event) : nat :=
  match tr with
  | [] => 0%nat
  | e :: rest => ((if p e then 1 else 0) + count_events p rest)%nat
  end.

(** The answers of the two remote services, of the search library, of
    [tempfile] and of the file system; the [nat] is the number of earlier
    calls of the same kind, so a poll can be answered differently each time.
    [py_str] is Python's [str()] on decoded values, which the f-strings
    apply. *)
Record Env : Type := mkEnv {
  ytmusic_init : nat -> option PyExn;
  ytmusic_search : nat -> string -> string -> PyExn + list pyval;
  requests_post : nat -> string -> pyval -> PyExn + Response;
  requests_get : nat -> pyval -> PyExn + Response;
  mkdtemp : nat -> string;
  py_str : pyval -> string;
  file_write : nat -> string -> bytes -> WriteOutcome
}.

Record State : Type := mkState {
  trace : list Event;
  fs : gmap string bytes
}.

Definition log (e : Event) (st : State) : State :=
  mkState (trace st ++ [e]) (fs st).

(** ** The monad: state plus Python exceptions *)

Inductive Outcome (A : Type) : Type :=
| Ret (a : A)
| Raise (e : PyExn).
Arguments Ret {A} a.
Arguments Raise {A} e.

Definition M (A : Type) : Type := State -> Outcome A * State.

Definition ret {A} (a : A) : M A := fun st => (Ret a, st).
Definition raise {A} (e : PyExn) : M A := fun st => (Raise e, st).
Definition bind {A B} (m : M A) (k : A -> M B) : M B :=
  fun st =>
    match m st with
    | (Ret a, st') => k a st'
    | (Raise e, st') => (Raise e, st')
    end.

(** [try: body / except Exception as e: handler e] followed by [cont] on the
    value the body bound. The handler's result is the result of the whole
    function (in the source it ends in [return]). *)
Definition try_except {A B} (body : M A) (handler : PyExn -> M B) (cont : A -> M B) : M B :=
  fun st =>
    match body st with
    | (Ret a, st') => cont a st'
    | (Raise e, st') => handler e st'
    end.

Declare Scope py_scope.
Delimit Scope py_scope with py.
Notation "x <- m ;; k" := (bind m (fun x => k))
  (at level 100, m at next level, right associativity) : py_scope.
Notation "m ;;; k" := (bind m (fun _ => k))
  (at level 100, right associativity) : py_scope.
Open Scope py_scope.

Definition emit (e : Event) : M unit := fun st => (Ret tt, log e st).
Definition print (line : string) : M unit := emit (EvPrint line).
Definition sleep (seconds : Z) : M unit := emit (EvSleep seconds).

(** [v.get(key, default)]: only a dict has [get]. *)
Definition py_get (v : pyval) (key : string) (default : pyval) : M pyval :=
  match v with
  | VDict entries => ret (dict_get key default entries)
  | _ => raise (mkExn AttributeError
                  ("'" +:+ py_type_name v +:+ "' object has no attribute 'get'"))
  end.

(** [v[key]] with a string key. *)
Definition py_getitem (v : pyval) (key : string) : M pyval :=
  match v with
  | VDict entries =>
      match dict_lookup key entries with
      | Some x => ret x
      | None => raise (mkExn KeyError ("'" +:+ key +:+ "'"))
      end
  | VStr _ => raise (mkExn TypeError "string indices must be integers")
  | VList _ => raise (mkExn TypeError "list indices must be integers or slices, not str")
  | _ => raise (mkExn TypeError
                  ("'" +:+ py_type_name v +:+ "' object is not subscriptable"))
  end.

(** The items a [for] loop over [v] visits. *)
Definition py_iter (v : pyval) : M (list pyval) :=
  match v with
  | VList items => ret items
  | VDict entries => ret (map (fun kv => VStr (fst kv)) entries)
  | VStr s => ret (string_chars s)
  | _ => raise (mkExn TypeError
                  ("'" +:+ py_type_name v +:+ "' object is not iterable"))
  end.

(** ** The module, function by function *)

Definition BASE_URL : string := "https://music.yt2api.com/api/json".
Definition TASK_URL : string := BASE_URL +:+ "/task".
Definition BITRATE_192 : Z := 192.

Section Plugin.

Variable env : Env.

(** [requests.post(url, headers=HEADERS, json=data)]; the headers are the
    same constant on every call and are not recorded. *)
Definition do_requests_post (url : string) (data : pyval) : M Response :=
  fun st =>
    let st' := log (EvPost url data) st in
    match requests_post env (count_events is_post (trace st)) url data with
    | inl e => (Raise e, st')
    | inr r => (Ret r, st')
    end.

Definition do_requests_get (url : pyval) : M Response :=
  fun st =>
    let st' := log (EvGet url) st in
    match requests_get env (count_events is_get (trace st)) url with
    | inl e => (Raise e, st')
    | inr r => (Ret r, st')
    end.

Definition response_json (r : Response) : M pyval :=
  match json_body r with
  | Some v => ret v
  | None => raise (mkExn JSONDecodeError "Expecting value: line 1 column 1 (char 0)")
  end.

(** [with open(filename, "wb") as f: f.write(data)] *)
Definition write_file (filename : string) (data : bytes) : M unit :=
  fun st =>
    let tr := trace st ++ [EvWrite filename data] in
    match file_write env (count_events is_write (trace st)) filename data with
    | Written => (Ret tt, mkState tr (<[filename := data]> (fs st)))
    | OpenFails e => (Raise e, mkState tr (fs st))
    | WriteFails e written =>
        (Raise e, mkState tr (<[filename := take written data]> (fs st)))
    end.

Definition YTMusic : M unit :=
  fun st =>
    let st' := log EvYTMusic st in
    match ytmusic_init env (count_events is_ytmusic (trace st)) with
    | Some e => (Raise e, st')
    | None => (Ret tt, st')
    end.

Definition ytmusic_search_call (query filter : string) : M (list pyval) :=
  fun st =>
    let st' := log (EvSearch query filter) st in
    match ytmusic_search env (count_events is_search (trace st)) query filter with
    | inl e => (Raise e, st')
    | inr results => (Ret results, st')
    end.

Definition tempfile_mkdtemp : M string :=
  fun st =>
    (Ret (mkdtemp env (count_events is_mkdtemp (trace st))), log EvMkdtemp st).

(** lines 33-54 *)
Definition post_call (data : pyval) (is_task : bool) : M pyval :=
  let url := if is_task then TASK_URL else BASE_URL in
  response <- do_requests_post url data ;;
  if response_ok url response then
    response_json response
  else
    match raise_for_status url response with
    | Some e => raise e
    | None => ret VNone
    end.

(** lines 57-61 *)
Definition search_video (video_url : string) : M pyval :=
  let data := VDict [("ftype", VStr "mp3"); ("url", VStr video_url)] in
  response <- post_call data false ;;
  ret response.

(** lines 66-71: the body of the [for] loop, over the items still to visit *)
Fixpoint create_conversion_task_loop (items : list pyval) (bitrate : Z) : M pyval :=
  match items with
  | [] => ret VNone
  | task :: rest =>
      b <- py_get task "bitrate" VNone ;;
      if py_eq_int b bitrate then
        h <- py_get task "hash" VNone ;;
        let data := VDict [("hash", h)] in
        response <- post_call data false ;;
        py_get response "taskId" VNone
      else
        create_conversion_task_loop rest bitrate
  end.

(** lines 64-71 *)
Definition create_conversion_task (tasks : pyval) (bitrate : Z) : M pyval :=
  seq <- py_get tasks "tasks" (VList []) ;;
  items <- py_iter seq ;;
  create_conversion_task_loop items bitrate.

(** lines 77-83: [for _ in range(n)] with [n] iterations left *)
Fixpoint wait_loop (data : pyval) (n : nat) : M bool :=
  match n with
  | O => ret false
  | S n' =>
      convert_results <- post_call data true ;;
      status <- py_get convert_results "status" VNone ;;
      if py_eq_str status "finished" then
        ret true
      else
        print "Waiting..." ;;;
        sleep 1 ;;;
        wait_loop data n'
  end.

(** lines 74-83; [len(range(k))] is [max(k, 0)], which is [Z.to_nat k] *)
Definition wait_for_conversion_completion (task_id : pyval) (max_retries : Z) : M bool :=
  let data := VDict [("taskId", task_id)] in
  wait_loop data (Z.to_nat (max_retries + 1)).

(** lines 86-95 *)
Definition download_mp3 (download_url : pyval) (filename : string) : M bool :=
  response <- do_requests_get download_url ;;
  if status_code response =? 200 then
    write_file filename (content response) ;;;
    ret true
  else
    print ("Download failed with status code: " +:+ pretty (status_code response)) ;;;
    ret false.

(** lines 98-130 *)
Definition download_link (video_url : string) (filename : string) (max_retries : Z) : M bool :=
  print ("Search for video " +:+ video_url +:+ ".") ;;;
  tasks_response <- search_video video_url ;;
  task_id <- create_conversion_task tasks_response BITRATE_192 ;;
  if negb (py_truthy task_id) then
    print "No suitable task found for conversion." ;;;
    ret false
  else
    print "Wait for conversion." ;;;
    completed <- wait_for_conversion_completion task_id max_retries ;;
    if negb completed then
      print "Conversion not completed within the specified time." ;;;
      ret false
    else
      print "Downloading." ;;;
      download_results <- post_call (VDict [("taskId", task_id)]) true ;;
      download_url <- py_get download_results "download" VNone ;;
      if negb (py_truthy download_url) then
        print "Download URL not found in the response." ;;;
        ret false
      else
        download_mp3 download_url filename.

(** lines 133-169; the result is [Optional[bool]] *)
Definition search_and_download (query : string) (filename : string) : M (option bool) :=
  try_except
    (YTMusic ;;; ytmusic_search_call query "songs")
    (fun e =>
       print ("Error occurred during the search: " +:+ exn_msg e) ;;;
       ret (Some false))
    (fun search_results =>
       match search_results with
       | [] =>
           print "Song not found." ;;;
           ret (Some false)
       | first_result :: _ =>
           video_id <- py_get first_result "videoId" VNone ;;
           if negb (py_truthy video_id) then
             print "Video ID not found in the search results." ;;;
             ret None
           else
             print "-------------" ;;;
             title <- py_getitem first_result "title" ;;
             print ("Title:   " +:+ py_str env title) ;;;
             album <- py_getitem first_result "album" ;;
             album_name <- py_getitem album "name" ;;
             print ("Album:   " +:+ py_str env album_name) ;;;
             vid <- py_getitem first_result "videoId" ;;
             print ("Origin:  https://music.youtube.com/watch?v=" +:+ py_str env vid) ;;;
             print ("Save To: " +:+ filename) ;;;
             print "-------------" ;;;
             let video_url := "https://music.youtube.com/watch?v=" +:+ py_str env video_id in
             r <- download_link video_url filename 10 ;;
             ret (Some r)
       end).

(** ** The host side: tracks, albums and the action *)

(** Picard's [Metadata] is a multi-valued dictionary. *)
Record Track : Type := mkTrack {
  metadata : list (string * list string);
  files : list string
}.

Record Album : Type := mkAlbum { tracks : list Track }.

(** What the host may pass to [process_album]. *)
Inductive PyObject : Type :=
| AlbumObject (album : Album)
| OtherObject.

Fixpoint metadata_lookup (k : string) (md : list (string * list string)) : option (list string) :=
  match md with
  | [] => None
  | (k', vs) :: rest => if String.eqb k k' then Some vs else metadata_lookup k rest
  end.

(** [name in track.metadata] *)
Definition metadata_contains (md : list (string * list string)) (k : string) : bool :=
  match metadata_lookup k md with Some _ => true | None => false end.

(** [track.metadata.getall(name)] *)
Definition metadata_getall (md : list (string * list string)) (k : string) : list string :=
  match metadata_lookup k md with Some vs => vs | None => [] end.

(** [sep.join(parts)] *)
Definition str_join (sep : string) (parts : list string) : string :=
  String.concat sep parts.

Fixpoint ends_with_slash (s : string) : bool :=
  match s with
  | EmptyString => false
  | String c EmptyString => Ascii.eqb c "/"%char
  | String _ rest => ends_with_slash rest
  end.

Definition starts_with_slash (s : string) : bool :=
  match s with
  | String c _ => Ascii.eqb c "/"%char
  | EmptyString => false
  end.

(** [os.path.join(a, b)] of posixpath *)
Definition os_path_join (a b : string) : string :=
  if starts_with_slash b then b
  else if String.eqb a "" || ends_with_slash a then a +:+ b
  else a +:+ "/" +:+ b.

(** lines 175-185 *)
Definition download_track (artists : list string) (title : string) (filename : string)
  : M (option bool) :=
  let query := str_join " " artists +:+ " " +:+ title in
  print ("Downloading " +:+ title +:+ "...") ;;;
  success <- search_and_download query filename ;;
  (match success with
   | Some true => print ("Downloaded " +:+ title +:+ " successfully.")
   | _ => print ("Failed to download " +:+ title +:+ ".")
   end) ;;;
  ret success.

(** lines 194-199: the artists of a track, or [None] for [continue] *)
Definition track_artists (track : Track) : option (list string) :=
  if metadata_contains (metadata track) "artists" then
    Some (metadata_getall (metadata track) "artists")
  else if metadata_contains (metadata track) "artist" then
    Some (metadata_getall (metadata track) "artist")
  else None.

Definition track_title (track : Track) : string :=
  str_join " " (metadata_getall (metadata track) "title").

Definition track_filename (temp_dir : string) (track : Track) : string :=
  os_path_join temp_dir (track_title track +:+ ".mp3").

(** [track.tagger.add_files([filename])] *)
Definition tagger_add_files (filenames : list string) : M unit :=
  emit (EvAddFiles filenames).

(** lines 193-205: the [for track in album.tracks] loop *)
Fixpoint process_tracks (temp_dir : string) (ts : list Track) : M unit :=
  match ts with
  | [] => ret tt
  | track :: rest =>
      match track_artists track with
      | None => process_tracks temp_dir rest
      | Some artists =>
          if (length (files track) =? 0)%nat then
            let title := track_title track in
            let filename := os_path_join temp_dir (title +:+ ".mp3") in
            download_track artists title filename ;;;
            tagger_add_files [filename] ;;;
            process_tracks temp_dir rest
          else
            process_tracks temp_dir rest
      end
  end.

(** lines 187-205 *)
Definition process_album (obj : PyObject) : M unit :=
  match obj with
  | OtherObject => ret tt
  | AlbumObject album =>
      temp_dir <- tempfile_mkdtemp ;;
      process_tracks temp_dir (tracks album)
  end.

(** lines 207-210 *)
Fixpoint callback (objs : list PyObject) : M unit :=
  match objs with
  | [] => ret tt
  | album :: rest => process_album album ;;; callback rest
  end.

End Plugin.

(** * Specification vocabulary *)

(** ** Counting events *)

Definition posts (st : State) : nat := count_events is_post (trace st).
Definition gets (st : State) : nat := count_events is_get (trace st).
Definition writes (st : State) : nat := count_events is_write (trace st).
Definition sleeps (st : State) : nat := count_events is_sleep (trace st).
Definition inits (st : State) : nat := count_events is_ytmusic (trace st).
Definition searches (st : State) : nat := count_events is_search (trace st).

(** ** Which events a computation may perform *)

(** [quiet P m]: [m] only appends events satisfying [P] and leaves the file
    system alone; [emits P m] speaks of the trace only. *)
Definition quiet {A} (P : Event -> Prop) (m : M A) : Prop :=
  forall st, exists evs,
    snd (m st) = mkState (trace st ++ evs) (fs st) /\ Forall P evs.

Definition emits {A} (P : Event -> Prop) (m : M A) : Prop :=
  forall st, exists evs,
    trace (snd (m st)) = trace st ++ evs /\ Forall P evs.

(** Every function only ever appends to the trace. *)
Definition any_event (e : Event) : Prop := True.

(** [st'] differs from [st] by neither a byte fetch nor a file write. *)
Definition no_transfer (st st' : State) : Prop :=
  gets st' = gets st /\ writes st' = writes st /\ fs st' = fs st.

Definition not_transfer (e : Event) : Prop := is_get e = false /\ is_write e = false.

(** ** The poller's view of the service *)

Definition poll_data (task_id : pyval) : pyval := VDict [("taskId", task_id)].

(** What a poll answered with [o] tells the loop: [Some true] for a status
    reading "finished", [Some false] for any other status (or none), and
    [None] when the answer is no status response at all (the request raised,
    the status is 4xx/5xx, or the body is not a JSON object). *)
Definition reply_status (o : PyExn + Response) : option bool :=
  match o with
  | inl _ => None
  | inr r =>
      if response_ok TASK_URL r then
        match json_body r with
        | Some (VDict d) => Some (py_eq_str (dict_get "status" VNone d) "finished")
        | _ => None
        end
      else None
  end.

(** The answer to the [i]-th poll issued from state [st]. *)
Definition poll_reply (env : Env) (st : State) (task_id : pyval) (i : nat) : PyExn + Response :=
  requests_post env (posts st + i)%nat TASK_URL (poll_data task_id).

(** The events of one iteration that did not see "finished". *)
Definition pending_round (data : pyval) : list Event :=
  [EvPost TASK_URL data; EvPrint "Waiting..."; EvSleep 1].

Fixpoint pending_rounds (data : pyval) (n : nat) : list Event :=
  match n with
  | O => []
  | S n' => pending_round data ++ pending_rounds data n'
  end.

(** C9 as the specification words it: the number of status queries of a
    call is [max(maxAttempts + 1, 0)]. *)
Definition queries_equal_budget : Prop :=
  forall (env : Env) (task_id : pyval) (max_retries : Z) (st : State),
    (posts (snd (wait_for_conversion_completion env task_id max_retries st)) - posts st)%nat
    = Z.to_nat (Z.max (max_retries + 1) 0).

(** ** The downloader's notion of success *)

(** The claim's reading of a successful fetch: a 2xx status. *)
Definition success_status (r : Response) : bool :=
  (200 <=? status_code r) && (status_code r <? 300).

(** C4 as the specification words it: [download_mp3] fails exactly when the
    status of the fetch is not a success status. *)
Definition download_fails_exactly_on_non_success : Prop :=
  forall (env : Env) (url : pyval) (filename : string) (st : State) (r : Response),
    requests_get env (gets st) url = inr r ->
    (fst (download_mp3 env url filename st) = Ret false <-> success_status r = false).

(** ** The batch *)

(** A track the batch driver works on: artist metadata present, no file
    attached. *)
Definition eligible (track : Track) : bool :=
  match track_artists track with
  | Some _ => (length (files track) =? 0)%nat
  | None => false
  end.

(** [Attempted env tmp st ts st']: starting in [st], each track of [ts] in turn
    had its pipeline run to a returned outcome (whichever: [True], [False] or
    [None]) and its destination path handed to [add_files], ending in [st']. *)
Inductive Attempted (env : Env) (tmp : string) : State -> list Track -> State -> Prop :=
| Attempted_nil st : Attempted env tmp st [] st
| Attempted_cons st track artists r st1 rest st' :
    track_artists track = Some artists ->
    download_track env artists (track_title track) (track_filename tmp track) st
      = (Ret r, st1) ->
    Attempted env tmp (log (EvAddFiles [track_filename tmp track]) st1) rest st' ->
    Attempted env tmp st (track :: rest) st'.

(** Failure isolation as the specification words it: whatever fails inside a
    track's run, the run is reduced to a returned outcome and every track of
    the batch that is to be worked on gets its attempt. *)
Definition batch_isolates_every_failure : Prop :=
  forall (env : Env) (album : Album) (st : State),
    exists st',
      Attempted env (mkdtemp env (count_events is_mkdtemp (trace st)))
                (log EvMkdtemp st) (List.filter eligible (tracks album)) st'.

(** * Concrete worlds *)

Module Scenario.

Definition st0 : State := mkState [] ∅.

Definition ok_json (v : pyval) : PyExn + Response :=
  inr (mkResponse 200 "OK" (Some v) []).

(** A rendering of [str()] that is exact on strings and integers. *)
Definition render (v : pyval) : string :=
  match v with
  | VStr s => s
  | VInt n => pretty n
  | VNone => "None"
  | VBool true => "True"
  | VBool false => "False"
  | _ => "..."
  end.

Definition world (search : PyExn + list pyval) (post : nat -> PyExn + Response)
  (get : PyExn + Response) : Env :=
  mkEnv (fun _ => None) (fun _ _ _ => search) (fun n _ _ => post n) (fun _ _ => get)
        (fun _ => "/tmp/tmpab12") render (fun _ _ _ => Written).

Definition hit : pyval :=
  VDict [("videoId", VStr "abc123"); ("title", VStr "Song Y");
         ("album", VDict [("name", VStr "Album Z")])].

Definition mp3 : bytes := [Byte.x49; Byte.x44; Byte.x33].

Definition variant (h : string) (b : Z) : list (string * pyval) :=
  [("hash", VStr h); ("bitrate", VInt b)].

Definition variants_reply (vs : list (list (string * pyval))) : PyExn + Response :=
  ok_json (VDict [("tasks", VList (map VDict vs))]).

Definition pending : PyExn + Response := ok_json (VDict [("status", VStr "pending")]).
Definition finished : PyExn + Response :=
  ok_json (VDict [("status", VStr "finished"); ("download", VStr "https://cdn.example/f.mp3")]).
Definition finished_no_url : PyExn + Response :=
  ok_json (VDict [("status", VStr "finished")]).

(** Scenario A of the specification: one hit, a 192 variant, one "pending"
    poll and then "finished". *)
Definition env_A : Env :=
  world (inr [hit])
        (fun n => match n with
                  | 0%nat => variants_reply [variant "h1" 192]
                  | 1%nat => ok_json (VDict [("taskId", VStr "t1")])
                  | 2%nat => pending
                  | _ => finished
                  end)
        (inr (mkResponse 200 "OK" None mp3)).

(** Scenario B: no 192 variant on offer. *)
Definition env_B : Env :=
  world (inr [hit])
        (fun n => match n with
                  | 0%nat => variants_reply [variant "h0" 128; variant "h2" 320]
                  | _ => ok_json (VDict [("taskId", VStr "t1")])
                  end)
        (inr (mkResponse 200 "OK" None mp3)).

(** Scenario C: the task never finishes. *)
Definition env_C : Env :=
  world (inr [hit])
        (fun n => match n with
                  | 0%nat => variants_reply [variant "h1" 192]
                  | 1%nat => ok_json (VDict [("taskId", VStr "t1")])
                  | _ => pending
                  end)
        (inr (mkResponse 200 "OK" None mp3)).

(** The conversion service answers the variant discovery with a 500. *)
Definition env_500 : Env :=
  world (inr [hit])
        (fun _ => inr (mkResponse 500 "Internal Server Error" None []))
        (inr (mkResponse 200 "OK" None mp3)).

(** The search finds nothing; the search raises. *)
Definition env_empty : Env := world (inr []) (fun _ => pending) (inr (mkResponse 200 "OK" None mp3)).
Definition timeout_error : PyExn := mkExn ConnectionError "Read timed out.".
Definition env_search_error : Env :=
  world (inl timeout_error) (fun _ => pending) (inr (mkResponse 200 "OK" None mp3)).

(** A poller's view: "pending", then "finished". *)
Definition env_poll : Env :=
  world (inr [hit])
        (fun n => match n with 1%nat => finished | _ => pending end)
        (inr (mkResponse 200 "OK" None mp3)).

(** The completed task carries no download URL. *)
Definition env_no_url : Env :=
  world (inr [hit])
        (fun n => match n with
                  | 0%nat => variants_reply [variant "h1" 192]
                  | 1%nat => ok_json (VDict [("taskId", VStr "t1")])
                  | 2%nat => finished
                  | _ => finished_no_url
                  end)
        (inr (mkResponse 200 "OK" None mp3)).

(** The asset fetch is answered "204 No Content". *)
Definition no_content : Response := mkResponse 204 "No Content" None [].
Definition env_204 : Env := world (inr [hit]) (fun _ => pending) (inr no_content).

Definition track_a : Track := mkTrack [("artist", ["Artist X"]); ("title", ["Song Y"])] [].
Definition track_b : Track := mkTrack [("artists", ["Duo"; "Trio"]); ("title", ["Other"])] [].
Definition album_ab : Album := mkAlbum [track_a; track_b].

End Scenario.

(** * Further vocabulary *)

(** [if success:] in [download_track]: only [True] counts. *)
Definition succeeded (r : option bool) : bool :=
  match r with
  | Some true => true
  | _ => false
  end.

(** [writes_only_destination ok filename m]: [m] leaves the file system as
    it was and does not return a value that [ok] accepts; or it returns such
    a value and the file system differs by one binding, that of [filename];
    or it raises and the file system differs by one binding, that of
    [filename] (what a write that failed midway left there). *)
Definition writes_only_destination {A} (ok : A -> bool) (filename : string) (m : M A) : Prop :=
  forall st,
    (fs (snd (m st)) = fs st /\ forall a, fst (m st) = Ret a -> ok a = false)
    \/ (exists a data,
          fst (m st) = Ret a /\ ok a = true
          /\ fs (snd (m st)) = <[filename := data]> (fs st))
    \/ (exists e data,
          fst (m st) = Raise e
          /\ fs (snd (m st)) = <[filename := data]> (fs st)).

(** [isinstance(album, Album)] *)
Definition is_album (obj : PyObject) : bool :=
  match obj with
  | AlbumObject _ => true
  | OtherObject => false
  end.

(** The same world with another answer of the search library. *)
Definition with_search (env : Env) (search : nat -> string -> string -> PyExn + list pyval) : Env :=
  mkEnv (ytmusic_init env) search (requests_post env) (requests_get env)
        (mkdtemp env) (py_str env) (file_write env).

(** The request body of the variant discovery. *)
Definition discovery_data (video_url : string) : pyval :=
  VDict [("ftype", VStr "mp3"); ("url", VStr video_url)].

(** A request answered with the JSON value [v] and a status outside
    4xx/5xx. *)
Definition json_reply (o : PyExn + Response) (v : pyval) : Prop :=
  exists r, o = inr r /\ ~ (400 <= status_code r < 600) /\ json_body r = Some v.

(** The request body of the task creation for a variant. *)
Definition creation_data (v : list (string * pyval)) : pyval :=
  VDict [("hash", dict_get "hash" VNone v)].

(** lines 118-130 of [download_link]: what it does once it holds a task id *)
Definition download_link_after_task (env : Env) (task_id : pyval) (filename : string)
  (max_retries : Z) : M bool :=
  print "Wait for conversion." ;;;
  completed <- wait_for_conversion_completion env task_id max_retries ;;
  if negb completed then
    print "Conversion not completed within the specified time." ;;;
    ret false
  else
    print "Downloading." ;;;
    download_results <- post_call env (VDict [("taskId", task_id)]) true ;;
    download_url <- py_get download_results "download" VNone ;;
    if negb (py_truthy download_url) then
      print "Download URL not found in the response." ;;;
      ret false
    else
      download_mp3 env download_url filename.

(** The events of [download_link] up to the creation of a task for the
    variant [v]. *)
Definition task_requested (video_url : string) (v : list (string * pyval)) : list Event :=
  [EvPrint ("Search for video " +:+ video_url +:+ ".");
   EvPost BASE_URL (discovery_data video_url);
   EvPost BASE_URL (creation_data v)].

Module Cases.

Import Scenario.

(** The second poll is cut off by the network. *)
Definition env_drop : Env :=
  world (inr [hit])
        (fun n => match n with 1%nat => inl timeout_error | _ => pending end)
        (inr (mkResponse 200 "OK" None mp3)).

(** The task creation is answered without a task id. *)
Definition env_no_task_id : Env :=
  world (inr [hit])
        (fun n => match n with
                  | 0%nat => variants_reply [variant "h1" 192]
                  | _ => ok_json (VDict [("error", VStr "busy")])
                  end)
        (inr (mkResponse 200 "OK" None mp3)).

(** Hits that lack a field. *)
Definition hit_no_video_id : pyval := VDict [("title", VStr "Song Y")].
Definition hit_no_title : pyval := VDict [("videoId", VStr "abc123")].
Definition hit_no_album : pyval :=
  VDict [("videoId", VStr "abc123"); ("title", VStr "Song Y"); ("album", VNone)].

Definition env_hit (h : pyval) : Env :=
  world (inr [h; hit]) (fun _ => pending) (inr (mkResponse 200 "OK" None mp3)).

Definition track_done : Track :=
  mkTrack [("artist", ["Artist X"]); ("title", ["Song Y"])] ["/music/song_y.flac"].
Definition track_anonymous : Track := mkTrack [("title", ["Untitled"])] [].
Definition album_done : Album := mkAlbum [track_done; track_anonymous].

Definition watch_url : string := "https://music.youtube.com/watch?v=abc123".

(** The directory of the destination does not exist; the disk fills up
    after two bytes. *)
Definition no_such_directory : PyExn :=
  mkExn OSError "[Errno 2] No such file or directory: 'nodir/f.mp3'".
Definition disk_full : PyExn := mkExn OSError "[Errno 28] No space left on device".

Definition with_file_write (env : Env) (w : nat -> string -> bytes -> WriteOutcome) : Env :=
  mkEnv (ytmusic_init env) (ytmusic_search env) (requests_post env) (requests_get env)
        (mkdtemp env) (py_str env) w.

Definition env_unwritable : Env := with_file_write env_A (fun _ _ _ => OpenFails no_such_directory).
Definition env_disk_full : Env := with_file_write env_A (fun _ _ _ => WriteFails disk_full 2).

Definition track_rooted : Track :=
  mkTrack [("artist", ["Artist X"]); ("title", ["/var/tmp/x"])] [].

End Cases.

(** * Verification *)

Lemma count_events_app p (a b : list Event) :
  count_events p (a ++ b) = (count_events p a + count_events p b)%nat.
Proof.
  induction a as [|e a IH]; simpl; [reflexivity|]. rewrite IH. lia.
Qed.

Lemma count_events_none p (evs : list Event) :
  Forall (fun e => p e = false) evs -> count_events p evs = 0%nat.
Proof.
  induction 1 as [|e evs He _ IH]; simpl; [reflexivity|]. now rewrite He, IH.
Qed.

Lemma quiet_emits {A} P (m : M A) : quiet P m -> emits P m.
Proof.
  intros H st. destruct (H st) as (evs & E & F). exists evs. now rewrite E.
Qed.

Lemma quiet_ret {A} P (a : A) : quiet P (ret a).
Proof. intros [tr f]. exists []. simpl. now rewrite app_nil_r. Qed.

Lemma quiet_raise {A} P e : quiet P (@raise A e).
Proof. intros [tr f]. exists []. simpl. now rewrite app_nil_r. Qed.

Lemma quiet_emit P e : P e -> quiet P (emit e).
Proof. intros H st. exists [e]. simpl. split; [reflexivity|]. now constructor. Qed.

Lemma quiet_bind {A B} P (m : M A) (k : A -> M B) :
  quiet P m -> (forall a, quiet P (k a)) -> quiet P (bind m k).
Proof.
  intros Hm Hk st. unfold bind.
  destruct (Hm st) as (evs & E & F).
  destruct (m st) as [[a|e] st1]; simpl in E; subst st1.
  - destruct (Hk a (mkState (trace st ++ evs) (fs st))) as (evs2 & E2 & F2).
    exists (evs ++ evs2). rewrite E2. simpl. rewrite app_assoc.
    split; [reflexivity|]. now apply Forall_app.
  - exists evs. now split.
Qed.

Lemma emits_ret {A} P (a : A) : emits P (ret a).
Proof. apply quiet_emits, quiet_ret. Qed.

Lemma emits_emit P e : P e -> emits P (emit e).
Proof. intros. now apply quiet_emits, quiet_emit. Qed.

Lemma emits_bind {A B} P (m : M A) (k : A -> M B) :
  emits P m -> (forall a, emits P (k a)) -> emits P (bind m k).
Proof.
  intros Hm Hk st. unfold bind.
  destruct (Hm st) as (evs & E & F).
  destruct (m st) as [[a|e] st1]; simpl in E.
  - destruct (Hk a st1) as (evs2 & E2 & F2).
    exists (evs ++ evs2). rewrite E2, E, app_assoc.
    split; [reflexivity|]. now apply Forall_app.
  - exists evs. now split.
Qed.

Lemma emits_try_except {A B} P (body : M A) (handler : PyExn -> M B) (cont : A -> M B) :
  emits P body -> (forall e, emits P (handler e)) -> (forall a, emits P (cont a)) ->
  emits P (try_except body handler cont).
Proof.
  intros Hb Hh Hc st. unfold try_except.
  destruct (Hb st) as (evs & E & F).
  destruct (body st) as [[a|e] st1]; simpl in E.
  - destruct (Hc a st1) as (evs2 & E2 & F2).
    exists (evs ++ evs2). rewrite E2, E, app_assoc.
    split; [reflexivity|]. now apply Forall_app.
  - destruct (Hh e st1) as (evs2 & E2 & F2).
    exists (evs ++ evs2). rewrite E2, E, app_assoc.
    split; [reflexivity|]. now apply Forall_app.
Qed.

Lemma quiet_py_get P v key default : quiet P (py_get v key default).
Proof. destruct v; simpl; auto using @quiet_ret, @quiet_raise. Qed.

Lemma quiet_py_getitem P v key : quiet P (py_getitem v key).
Proof.
  destruct v; simpl; auto using @quiet_ret, @quiet_raise.
  destruct (dict_lookup key entries); auto using @quiet_ret, @quiet_raise.
Qed.

Lemma quiet_py_iter P v : quiet P (py_iter v).
Proof. destruct v; simpl; auto using @quiet_ret, @quiet_raise. Qed.

Section Frames.

Variable env : Env.
Variable P : Event -> Prop.

Lemma quiet_requests_post url data :
  P (EvPost url data) -> quiet P (do_requests_post env url data).
Proof.
  intros H st. exists [EvPost url data]. unfold do_requests_post.
  destruct (requests_post env _ url data); simpl; (split; [reflexivity|now constructor]).
Qed.

Lemma quiet_response_json r : quiet P (response_json r).
Proof. unfold response_json. destruct (json_body r); auto using @quiet_ret, @quiet_raise. Qed.

Hypothesis P_post : forall url data, P (EvPost url data).

Lemma quiet_post_call data is_task : quiet P (post_call env data is_task).
Proof.
  unfold post_call. apply quiet_bind; [apply quiet_requests_post, P_post|].
  intros r. destruct (response_ok _ r); [apply quiet_response_json|].
  destruct (raise_for_status _ r); auto using @quiet_ret, @quiet_raise.
Qed.

Lemma quiet_search_video video_url : quiet P (search_video env video_url).
Proof.
  unfold search_video. apply quiet_bind; [apply quiet_post_call|]. intros; apply quiet_ret.
Qed.

Lemma quiet_create_conversion_task_loop items bitrate :
  quiet P (create_conversion_task_loop env items bitrate).
Proof.
  induction items as [|task rest IH]; simpl; [apply quiet_ret|].
  apply quiet_bind; [apply quiet_py_get|]. intros b.
  destruct (py_eq_int b bitrate); [|exact IH].
  apply quiet_bind; [apply quiet_py_get|]. intros h.
  apply quiet_bind; [apply quiet_post_call|]. intros r. apply quiet_py_get.
Qed.

Lemma quiet_create_conversion_task tasks bitrate :
  quiet P (create_conversion_task env tasks bitrate).
Proof.
  unfold create_conversion_task.
  apply quiet_bind; [apply quiet_py_get|]. intros s.
  apply quiet_bind; [apply quiet_py_iter|]. intros items.
  apply quiet_create_conversion_task_loop.
Qed.

Hypothesis P_print : forall line, P (EvPrint line).
Hypothesis P_sleep : forall n, P (EvSleep n).

Lemma quiet_wait_loop data n : quiet P (wait_loop env data n).
Proof.
  induction n as [|n IH]; simpl; [apply quiet_ret|].
  apply quiet_bind; [apply quiet_post_call|]. intros r.
  apply quiet_bind; [apply quiet_py_get|]. intros s.
  destruct (py_eq_str s "finished"); [apply quiet_ret|].
  apply quiet_bind; [apply quiet_emit, P_print|]. intros _.
  apply quiet_bind; [apply quiet_emit, P_sleep|]. intros _. exact IH.
Qed.

Lemma quiet_wait_for_conversion_completion task_id max_retries :
  quiet P (wait_for_conversion_completion env task_id max_retries).
Proof. apply quiet_wait_loop. Qed.

End Frames.

(** ** Facts about single calls *)

Arguments py_get : simpl never.
Arguments dict_get : simpl never.
Arguments post_call : simpl never.
Arguments bind : simpl never.

Lemma bind_returns {A B} (m : M A) (k : A -> M B) st a st' :
  m st = (Ret a, st') -> bind m k st = k a st'.
Proof. intros H. unfold bind. now rewrite H. Qed.

Lemma bind_raises {A B} (m : M A) (k : A -> M B) st e st' :
  m st = (Raise e, st') -> bind m k st = (Raise e, st').
Proof. intros H. unfold bind. now rewrite H. Qed.

Lemma bind_emit {B} (e : Event) (k : unit -> M B) st :
  bind (emit e) k st = k tt (log e st).
Proof. reflexivity. Qed.

Lemma bind_print {B} (line : string) (k : unit -> M B) st :
  bind (print line) k st = k tt (log (EvPrint line) st).
Proof. reflexivity. Qed.

Section Calls.

Variable env : Env.

Lemma py_get_dict entries key default st :
  py_get (VDict entries) key default st = (Ret (dict_get key default entries), st).
Proof. reflexivity. Qed.

Lemma py_get_state v key default st : snd (py_get v key default st) = st.
Proof. destruct v; reflexivity. Qed.

(** Whatever the answer, [post_call] performs exactly one POST. *)
Lemma post_call_state data (is_task : bool) st :
  snd (post_call env data is_task st)
  = log (EvPost (if is_task then TASK_URL else BASE_URL) data) st.
Proof.
  unfold post_call, bind, do_requests_post.
  destruct (requests_post env _ _ data) as [e|r]; [reflexivity|].
  destruct (response_ok _ r).
  - unfold response_json. destruct (json_body r); reflexivity.
  - destruct (raise_for_status _ r); reflexivity.
Qed.

(** The [else] branch of [post_call] always raises: the [return None] that
    Python would add after it is never reached. *)
Lemma post_call_else_raises url r :
  response_ok url r = false -> exists e, raise_for_status url r = Some e.
Proof.
  unfold response_ok. destruct (raise_for_status url r) as [e|]; [eauto|discriminate].
Qed.

(** A POST answered with a JSON body and a status outside 4xx/5xx. *)
Lemma post_call_ok data (is_task : bool) st r v :
  requests_post env (posts st) (if is_task then TASK_URL else BASE_URL) data = inr r ->
  response_ok (if is_task then TASK_URL else BASE_URL) r = true ->
  json_body r = Some v ->
  post_call env data is_task st
  = (Ret v, log (EvPost (if is_task then TASK_URL else BASE_URL) data) st).
Proof.
  intros Hr Hok Hj. unfold post_call, bind, do_requests_post.
  unfold posts in Hr. rewrite Hr, Hok. unfold response_json. now rewrite Hj.
Qed.

Lemma create_conversion_task_loop_skip pre rest bitrate st :
  Forall (fun v => py_eq_int (dict_get "bitrate" VNone v) bitrate = false) pre ->
  create_conversion_task_loop env (map VDict pre ++ rest) bitrate st
  = create_conversion_task_loop env rest bitrate st.
Proof.
  induction 1 as [|v pre Hv _ IH]; [reflexivity|].
  simpl. unfold bind at 1. rewrite py_get_dict, Hv. exact IH.
Qed.

End Calls.

(** ** The conversion requester (create_conversion_task) *)

(** C3. When the variant list holds no variant whose bitrate equals the
    requested one, [create_conversion_task] returns [None] (the no-task
    outcome) and leaves the state as it found it: no task-creation call, nor
    any other call, is issued. *)
Theorem create_conversion_task_no_match
  (env : Env) (entries : list (string * pyval))
  (variants : list (list (string * pyval))) (bitrate : Z) (st : State) :
  dict_get "tasks" (VList []) entries = VList (map VDict variants) ->
  Forall (fun v => py_eq_int (dict_get "bitrate" VNone v) bitrate = false) variants ->
  create_conversion_task env (VDict entries) bitrate st = (Ret VNone, st)
  /\ posts (snd (create_conversion_task env (VDict entries) bitrate st)) = posts st.
Proof.
  intros Htasks Hnone.
  assert (E : create_conversion_task env (VDict entries) bitrate st = (Ret VNone, st)).
  { unfold create_conversion_task, bind. rewrite py_get_dict, Htasks. simpl.
    rewrite <- (app_nil_r (map VDict variants)).
    now rewrite create_conversion_task_loop_skip. }
  now rewrite E.
Qed.

(** C6. When some variant has the requested bitrate, the scan stops at the
    first one in the order the service listed them: the only call made is one
    task creation, to the base endpoint, carrying that variant's hash; the
    variants after it, matching or not, are never looked at. *)
Theorem create_conversion_task_first_match
  (env : Env) (entries : list (string * pyval))
  (pre : list (list (string * pyval))) (v : list (string * pyval))
  (post : list (list (string * pyval))) (bitrate : Z) (st : State) :
  dict_get "tasks" (VList []) entries = VList (map VDict (pre ++ v :: post)) ->
  Forall (fun w => py_eq_int (dict_get "bitrate" VNone w) bitrate = false) pre ->
  py_eq_int (dict_get "bitrate" VNone v) bitrate = true ->
  let submit := VDict [("hash", dict_get "hash" VNone v)] in
  create_conversion_task env (VDict entries) bitrate st
  = (response <- post_call env submit false ;; py_get response "taskId" VNone) st
  /\ snd (create_conversion_task env (VDict entries) bitrate st)
     = log (EvPost BASE_URL submit) st.
Proof.
  intros Htasks Hpre Hv submit.
  assert (E : create_conversion_task env (VDict entries) bitrate st
              = (response <- post_call env submit false ;; py_get response "taskId" VNone) st).
  { unfold create_conversion_task. unfold bind at 1. rewrite py_get_dict, Htasks.
    unfold bind at 1. simpl py_iter. unfold ret at 1.
    rewrite map_app. simpl map.
    rewrite create_conversion_task_loop_skip by assumption.
    simpl. unfold bind at 1. rewrite py_get_dict, Hv.
    unfold bind at 1. rewrite py_get_dict. reflexivity. }
  split; [exact E|]. rewrite E. unfold bind.
  pose proof (post_call_state env submit false st) as Hs.
  destruct (post_call env submit false st) as [[r|e] st1]; simpl in Hs; subst st1.
  - now rewrite py_get_state.
  - reflexivity.
Qed.

(** ** The task poller (wait_for_conversion_completion) *)

Lemma posts_pending_rounds data n : count_events is_post (pending_rounds data n) = n.
Proof. induction n as [|n IH]; simpl; [reflexivity|now rewrite IH]. Qed.

Lemma sleeps_pending_rounds data n : count_events is_sleep (pending_rounds data n) = n.
Proof. induction n as [|n IH]; simpl; [reflexivity|now rewrite IH]. Qed.

Section Poller.

Variable env : Env.
Variable data : pyval.

Lemma wait_loop_step_pending n st :
  reply_status (requests_post env (posts st) TASK_URL data) = Some false ->
  wait_loop env data (S n) st
  = wait_loop env data n (mkState (trace st ++ pending_round data) (fs st)).
Proof.
  intros H. unfold reply_status in H.
  destruct (requests_post env (posts st) TASK_URL data) as [e|r] eqn:Hr; [discriminate|].
  destruct (response_ok TASK_URL r) eqn:Hok; [|discriminate].
  destruct (json_body r) as [[| | | | |d]|] eqn:Hj; try discriminate.
  injection H as H.
  simpl. unfold bind at 1.
  rewrite (post_call_ok env data true st r (VDict d) Hr Hok Hj).
  unfold bind at 1. rewrite py_get_dict, H.
  unfold bind, print, sleep, emit, log, pending_round. simpl.
  now rewrite <- !app_assoc.
Qed.

Lemma wait_loop_step_finished n st :
  reply_status (requests_post env (posts st) TASK_URL data) = Some true ->
  wait_loop env data (S n) st = (Ret true, log (EvPost TASK_URL data) st).
Proof.
  intros H. unfold reply_status in H.
  destruct (requests_post env (posts st) TASK_URL data) as [e|r] eqn:Hr; [discriminate|].
  destruct (response_ok TASK_URL r) eqn:Hok; [|discriminate].
  destruct (json_body r) as [[| | | | |d]|] eqn:Hj; try discriminate.
  injection H as H.
  simpl. unfold bind at 1.
  rewrite (post_call_ok env data true st r (VDict d) Hr Hok Hj).
  unfold bind at 1. now rewrite py_get_dict, H.
Qed.

Lemma posts_after_round st :
  posts (mkState (trace st ++ pending_round data) (fs st)) = S (posts st).
Proof. unfold posts. simpl. rewrite count_events_app. simpl. lia. Qed.

Lemma wait_loop_all_pending n : forall st,
  (forall i, (i < n)%nat ->
     reply_status (requests_post env (posts st + i)%nat TASK_URL data) = Some false) ->
  wait_loop env data n st
  = (Ret false, mkState (trace st ++ pending_rounds data n) (fs st)).
Proof.
  induction n as [|n IH]; intros st H.
  - simpl. unfold ret. rewrite app_nil_r. now destruct st.
  - rewrite wait_loop_step_pending.
    + rewrite IH.
      * simpl trace. simpl fs. now rewrite <- app_assoc.
      * intros i Hi. rewrite posts_after_round.
        replace (S (posts st) + i)%nat with (posts st + S i)%nat by lia.
        apply H. lia.
    + specialize (H 0%nat). rewrite Nat.add_0_r in H. apply H. lia.
Qed.

Lemma wait_loop_first_finished k : forall n st,
  (k < n)%nat ->
  (forall i, (i < k)%nat ->
     reply_status (requests_post env (posts st + i)%nat TASK_URL data) = Some false) ->
  reply_status (requests_post env (posts st + k)%nat TASK_URL data) = Some true ->
  wait_loop env data n st
  = (Ret true,
     mkState (trace st ++ pending_rounds data k ++ [EvPost TASK_URL data]) (fs st)).
Proof.
  induction k as [|k IH]; intros n st Hk Hpend Hfin.
  - destruct n as [|n]; [lia|]. rewrite Nat.add_0_r in Hfin.
    now rewrite wait_loop_step_finished.
  - destruct n as [|n]; [lia|].
    rewrite wait_loop_step_pending.
    + rewrite (IH n).
      * simpl trace. simpl fs. simpl pending_rounds.
        now rewrite <- !app_assoc.
      * lia.
      * intros i Hi. rewrite posts_after_round.
        replace (S (posts st) + i)%nat with (posts st + S i)%nat by lia.
        apply Hpend. lia.
      * rewrite posts_after_round.
        now replace (S (posts st) + k)%nat with (posts st + S k)%nat by lia.
    + specialize (Hpend 0%nat). rewrite Nat.add_0_r in Hpend. apply Hpend. lia.
Qed.

(** Each iteration issues one poll, whatever comes back. *)
Lemma wait_loop_budget n : forall st,
  (posts (snd (wait_loop env data n st)) <= posts st + n)%nat.
Proof.
  induction n as [|n IH]; intros st; simpl; [lia|].
  unfold bind at 1.
  pose proof (post_call_state env data true st) as Hs.
  destruct (post_call env data true st) as [[r|e] st1]; simpl in Hs; subst st1.
  - assert (Hp : posts (log (EvPost TASK_URL data) st) = S (posts st)).
    { unfold posts, log. simpl. rewrite count_events_app. simpl. lia. }
    unfold bind at 1.
    pose proof (py_get_state r "status" VNone (log (EvPost TASK_URL data) st)) as Hg.
    destruct (py_get r "status" VNone (log (EvPost TASK_URL data) st)) as [[s|e] st2];
      simpl in Hg; subst st2.
    + destruct (py_eq_str s "finished").
      * simpl. rewrite Hp. lia.
      * unfold bind, print, sleep, emit. simpl.
        match goal with |- (posts (snd (wait_loop _ _ _ ?s)) <= _)%nat =>
          specialize (IH s);
          assert (Hq : posts s = S (posts st))
            by (unfold posts, log; simpl; rewrite !count_events_app; simpl; lia)
        end.
        lia.
    + simpl. rewrite Hp. lia.
  - simpl. unfold posts, log. simpl. rewrite count_events_app. simpl. lia.
Qed.

(** Among replies that are all status responses, either one is the first to
    read "finished" or none does. *)
Lemma first_finished_or_none (status : nat -> option bool) n :
  (forall i, (i < n)%nat -> status i <> None) ->
  (exists k, (k < n)%nat /\ status k = Some true
             /\ forall j, (j < k)%nat -> status j = Some false)
  \/ (forall i, (i < n)%nat -> status i = Some false).
Proof.
  induction n as [|n IH]; intros H.
  - right. intros i Hi. lia.
  - destruct IH as [(k & Hk & Hf & Hp)|Hall].
    + intros i Hi. apply H. lia.
    + left. exists k. repeat split; [lia|assumption|assumption].
    + destruct (status n) as [[|]|] eqn:Hn.
      * left. exists n. repeat split; [lia|assumption|assumption].
      * right. intros i Hi. destruct (Nat.eq_dec i n) as [->|Hne]; [assumption|].
        apply Hall. lia.
      * exfalso. apply (H n); [lia|assumption].
Qed.

End Poller.

Lemma wait_for_conversion_completion_unfold env task_id max_retries st :
  wait_for_conversion_completion env task_id max_retries st
  = wait_loop env (poll_data task_id) (Z.to_nat (max_retries + 1)) st.
Proof. reflexivity. Qed.

(** C2. With a budget [max_retries >= 0], the poller issues at most
    [max_retries + 1] status queries.  If the [k]-th reply (counting from 0,
    [k <= max_retries]) is the first to read "finished", it returns [True]
    right after query [k + 1]: the trace ends with that query, preceded by
    [k] rounds of query, "Waiting..." and one second of sleep.  If none of the
    [max_retries + 1] replies reads "finished" it returns [False] after
    exactly [max_retries + 1] rounds.  Whenever every reply is a status
    response, one of the two happens. *)
Theorem wait_for_conversion_completion_bounded
  (env : Env) (task_id : pyval) (max_retries : Z) (st : State) :
  0 <= max_retries ->
  let data := poll_data task_id in
  let res := wait_for_conversion_completion env task_id max_retries st in
  let status i := reply_status (poll_reply env st task_id i) in
  (posts (snd res) - posts st <= Z.to_nat max_retries + 1)%nat
  /\ (forall k, (k <= Z.to_nat max_retries)%nat ->
        status k = Some true ->
        (forall j, (j < k)%nat -> status j = Some false) ->
        res = (Ret true,
               mkState (trace st ++ pending_rounds data k ++ [EvPost TASK_URL data]) (fs st))
        /\ posts (snd res) = (posts st + k + 1)%nat
        /\ sleeps (snd res) = (sleeps st + k)%nat)
  /\ ((forall k, (k <= Z.to_nat max_retries)%nat -> status k = Some false) ->
        res = (Ret false,
               mkState (trace st ++ pending_rounds data (Z.to_nat max_retries + 1)) (fs st))
        /\ posts (snd res) = (posts st + Z.to_nat max_retries + 1)%nat)
  /\ ((forall k, (k <= Z.to_nat max_retries)%nat -> status k <> None) ->
        fst res = Ret true \/ fst res = Ret false).
Proof.
  intros Hm data res status.
  assert (Hn : Z.to_nat (max_retries + 1) = (Z.to_nat max_retries + 1)%nat) by lia.
  assert (Hfin : forall k, (k <= Z.to_nat max_retries)%nat ->
            status k = Some true ->
            (forall j, (j < k)%nat -> status j = Some false) ->
            res = (Ret true,
                   mkState (trace st ++ pending_rounds data k ++ [EvPost TASK_URL data]) (fs st))).
  { intros k Hk Hf Hp. subst res. rewrite wait_for_conversion_completion_unfold. rewrite Hn.
    apply wait_loop_first_finished; [lia|exact Hp|exact Hf]. }
  assert (Hpend : (forall k, (k <= Z.to_nat max_retries)%nat -> status k = Some false) ->
            res = (Ret false,
                   mkState (trace st ++ pending_rounds data (Z.to_nat max_retries + 1)) (fs st))).
  { intros Hp. subst res. rewrite wait_for_conversion_completion_unfold. rewrite Hn.
    apply wait_loop_all_pending. intros i Hi. apply Hp. lia. }
  split; [|split; [|split]].
  - subst res. rewrite wait_for_conversion_completion_unfold. rewrite Hn.
    pose proof (wait_loop_budget env (poll_data task_id) (Z.to_nat max_retries + 1) st). lia.
  - intros k Hk Hf Hp. rewrite (Hfin k Hk Hf Hp). split; [reflexivity|].
    unfold posts, sleeps. simpl.
    rewrite !count_events_app, posts_pending_rounds, sleeps_pending_rounds. simpl. lia.
  - intros Hp. rewrite (Hpend Hp). split; [reflexivity|].
    unfold posts. simpl. rewrite count_events_app, posts_pending_rounds. lia.
  - intros Hs.
    destruct (first_finished_or_none status (Z.to_nat max_retries + 1)) as [(k & Hk & Hf & Hp)|Hp].
    + intros i Hi. apply Hs. lia.
    + left. rewrite (Hfin k); [reflexivity|lia|exact Hf|exact Hp].
    + right. rewrite Hpend; [reflexivity|]. intros k Hk. apply Hp. lia.
Qed.

(** C9, amended. The loop runs over [range(max_retries + 1)], which is empty
    for a negative budget: then no status query is made and the result is
    [False].  In general [max(max_retries + 1, 0)] bounds the number of
    status queries: there are never more than that, and there are exactly
    that many when every reply is a status other than "finished". *)
Theorem wait_for_conversion_completion_negative_budget
  (env : Env) (task_id : pyval) (max_retries : Z) (st : State) :
  let data := poll_data task_id in
  let res := wait_for_conversion_completion env task_id max_retries st in
  let budget := Z.to_nat (Z.max (max_retries + 1) 0) in
  (max_retries < 0 -> res = (Ret false, st) /\ posts (snd res) = posts st)
  /\ (posts (snd res) - posts st <= budget)%nat
  /\ ((forall i, (i < budget)%nat ->
         reply_status (poll_reply env st task_id i) = Some false) ->
      res = (Ret false, mkState (trace st ++ pending_rounds data budget) (fs st))
      /\ posts (snd res) = (posts st + budget)%nat).
Proof.
  intros data res budget.
  assert (Hb : Z.to_nat (max_retries + 1) = budget) by (subst budget; lia).
  split; [|split].
  - intros Hneg. subst res. rewrite wait_for_conversion_completion_unfold.
    replace (Z.to_nat (max_retries + 1)) with 0%nat by lia. now split.
  - subst res. rewrite wait_for_conversion_completion_unfold. rewrite Hb.
    pose proof (wait_loop_budget env (poll_data task_id) budget st). lia.
  - intros Hp. subst res. rewrite wait_for_conversion_completion_unfold. rewrite Hb.
    rewrite wait_loop_all_pending by exact Hp. split; [reflexivity|].
    unfold posts. simpl. rewrite count_events_app, posts_pending_rounds. reflexivity.
Qed.

(** ** The asset downloader (download_mp3 and the end of download_link) *)

Lemma no_transfer_refl st : no_transfer st st.
Proof. now repeat split. Qed.

Lemma no_transfer_trans a b c : no_transfer a b -> no_transfer b c -> no_transfer a c.
Proof. intros (G1 & W1 & F1) (G2 & W2 & F2). repeat split; congruence. Qed.

Lemma no_transfer_print line st : no_transfer st (log (EvPrint line) st).
Proof.
  unfold no_transfer, gets, writes, log. simpl. rewrite !count_events_app. simpl.
  repeat split; lia.
Qed.

Lemma no_transfer_quiet {A} (m : M A) st :
  quiet not_transfer m -> no_transfer st (snd (m st)).
Proof.
  intros Hq. destruct (Hq st) as (evs & E & F). rewrite E.
  unfold no_transfer, gets, writes. simpl. rewrite !count_events_app.
  rewrite (count_events_none is_get evs), (count_events_none is_write evs).
  - repeat split; lia.
  - eapply Forall_impl; [exact F|]. now intros e [_ H].
  - eapply Forall_impl; [exact F|]. now intros e [H _].
Qed.

Lemma not_transfer_post url data : not_transfer (EvPost url data).
Proof. now split. Qed.
Lemma not_transfer_print line : not_transfer (EvPrint line).
Proof. now split. Qed.
Lemma not_transfer_sleep n : not_transfer (EvSleep n).
Proof. now split. Qed.

Lemma writes_after_get url st :
  count_events is_write (trace (log (EvGet url) st)) = writes st.
Proof. unfold writes, log. simpl. rewrite count_events_app. simpl. lia. Qed.

(** C4, amended. The test of the code is [status_code == 200]: every other
    status, 2xx or not, makes [download_mp3] print the status and return
    [False] without touching the file system.  With status 200 it opens the
    destination and writes the fetched content: when that goes through, the
    destination holds the content byte for byte and the result is [True];
    when [open] raises, the exception leaves [download_mp3] and the file
    system is as before; when the write raises, the exception leaves
    [download_mp3] and the destination holds the bytes written so far. *)
Theorem download_mp3_status_200
  (env : Env) (url : pyval) (filename : string) (st : State) (r : Response) :
  requests_get env (gets st) url = inr r ->
  (status_code r <> 200 ->
     download_mp3 env url filename st
     = (Ret false,
        mkState (trace st ++ [EvGet url;
                              EvPrint ("Download failed with status code: "
                                       +:+ pretty (status_code r))])
                (fs st)))
  /\ (status_code r = 200 ->
      let tr := trace st ++ [EvGet url; EvWrite filename (content r)] in
      match file_write env (writes st) filename (content r) with
      | Written =>
          download_mp3 env url filename st
          = (Ret true, mkState tr (<[filename := content r]> (fs st)))
          /\ fs (snd (download_mp3 env url filename st)) !! filename = Some (content r)
      | OpenFails e =>
          download_mp3 env url filename st = (Raise e, mkState tr (fs st))
      | WriteFails e written =>
          download_mp3 env url filename st
          = (Raise e, mkState tr (<[filename := take written (content r)]> (fs st)))
      end).
Proof.
  intros Hr. unfold gets in Hr.
  split; intros Hs.
  - unfold download_mp3, bind, do_requests_get. rewrite Hr.
    apply Z.eqb_neq in Hs. rewrite Hs.
    unfold print, emit, log, ret. simpl. now rewrite <- app_assoc.
  - intros tr.
    assert (E : download_mp3 env url filename st
                = bind (write_file env filename (content r)) (fun _ => ret true)
                       (log (EvGet url) st)).
    { unfold download_mp3. unfold bind at 1. unfold do_requests_get.
      rewrite Hr, Hs. reflexivity. }
    rewrite E. unfold bind, write_file. rewrite writes_after_get.
    assert (Htr : trace (log (EvGet url) st) ++ [EvWrite filename (content r)] = tr).
    { subst tr. unfold log. simpl. now rewrite <- app_assoc. }
    rewrite Htr.
    destruct (file_write env (writes st) filename (content r)) as [|e|e written];
      simpl; [|reflexivity|reflexivity].
    split; [reflexivity|apply lookup_insert_eq].
Qed.

(** C8. Once the conversion is complete, if the final read of the task
    carries no download URL (no "download" entry, or an empty one),
    [download_link] reports the missing URL and returns [False]; between its
    start and its end there is neither a byte fetch nor a file write. *)
Theorem download_link_missing_url
  (env : Env) (video_url filename : string) (max_retries : Z) (st : State)
  (tasks task_id : pyval) (d : list (string * pyval)) (st1 st2 st3 st4 : State) :
  search_video env video_url
    (log (EvPrint ("Search for video " +:+ video_url +:+ ".")) st) = (Ret tasks, st1) ->
  create_conversion_task env tasks BITRATE_192 st1 = (Ret task_id, st2) ->
  py_truthy task_id = true ->
  wait_for_conversion_completion env task_id max_retries
    (log (EvPrint "Wait for conversion.") st2) = (Ret true, st3) ->
  post_call env (VDict [("taskId", task_id)]) true
    (log (EvPrint "Downloading.") st3) = (Ret (VDict d), st4) ->
  dict_lookup "download" d = None \/ dict_lookup "download" d = Some (VStr "") ->
  let res := download_link env video_url filename max_retries st in
  res = (Ret false, log (EvPrint "Download URL not found in the response.") st4)
  /\ no_transfer st (snd res).
Proof.
  intros H1 H2 Ht H3 H4 Hd res.
  assert (E : res = (Ret false, log (EvPrint "Download URL not found in the response.") st4)).
  { subst res. unfold download_link.
    rewrite bind_print, (bind_returns _ _ _ _ _ H1), (bind_returns _ _ _ _ _ H2), Ht.
    change (negb true) with false. cbv iota.
    rewrite bind_print, (bind_returns _ _ _ _ _ H3).
    change (negb true) with false. cbv iota.
    rewrite bind_print, (bind_returns _ _ _ _ _ H4).
    rewrite (bind_returns _ _ _ _ _ (py_get_dict d "download" VNone st4)).
    assert (Hf : py_truthy (dict_get "download" VNone d) = false).
    { unfold dict_get. destruct Hd as [-> | ->]; reflexivity. }
    rewrite Hf. reflexivity. }
  split; [exact E|]. rewrite E. simpl snd.
  pose proof (no_transfer_quiet (search_video env video_url)
                (log (EvPrint ("Search for video " +:+ video_url +:+ ".")) st)
                (quiet_search_video env _ not_transfer_post video_url)) as Q1.
  rewrite H1 in Q1.
  pose proof (no_transfer_quiet (create_conversion_task env tasks BITRATE_192) st1
                (quiet_create_conversion_task env _ not_transfer_post tasks BITRATE_192)) as Q2.
  rewrite H2 in Q2.
  pose proof (no_transfer_quiet (wait_for_conversion_completion env task_id max_retries)
                (log (EvPrint "Wait for conversion.") st2)
                (quiet_wait_for_conversion_completion env _ not_transfer_post
                   not_transfer_print not_transfer_sleep task_id max_retries)) as Q3.
  rewrite H3 in Q3.
  pose proof (no_transfer_quiet (post_call env (VDict [("taskId", task_id)]) true)
                (log (EvPrint "Downloading.") st3)
                (quiet_post_call env _ not_transfer_post _ true)) as Q4.
  rewrite H4 in Q4. simpl snd in *.
  eauto 12 using no_transfer_trans, no_transfer_print.
Qed.

(** ** The metadata resolver (the head of search_and_download) *)

(** C5. When the search returns an empty list, [search_and_download] prints
    "Song not found." and returns [False]; the only effects are the
    construction of the client and the search itself, so the conversion
    service is never called and nothing is fetched or written. *)
Theorem search_and_download_not_found
  (env : Env) (query filename : string) (st : State) :
  ytmusic_init env (inits st) = None ->
  ytmusic_search env (searches (log EvYTMusic st)) query "songs" = inr [] ->
  let res := search_and_download env query filename st in
  res = (Ret (Some false),
         mkState (trace st ++ [EvYTMusic; EvSearch query "songs"; EvPrint "Song not found."])
                 (fs st))
  /\ posts (snd res) = posts st
  /\ no_transfer st (snd res).
Proof.
  intros Hi Hs res.
  assert (E : res = (Ret (Some false),
         mkState (trace st ++ [EvYTMusic; EvSearch query "songs"; EvPrint "Song not found."])
                 (fs st))).
  { subst res. unfold search_and_download, try_except.
    unfold bind at 1. unfold YTMusic. unfold inits in Hi. rewrite Hi.
    unfold ytmusic_search_call. unfold searches in Hs. rewrite Hs.
    unfold bind, print, emit, log, ret. simpl. now rewrite <- !app_assoc. }
  rewrite E. split; [reflexivity|]. simpl snd.
  unfold no_transfer, posts, gets, writes. simpl. rewrite !count_events_app. simpl.
  repeat split; lia.
Qed.

(** C7. An exception raised while the client is built or while the search
    runs does not leave [search_and_download]: the handler prints it and the
    function returns [False], having called neither the conversion service
    nor the downloader. *)
Theorem search_and_download_catches_search_error
  (env : Env) (query filename : string) (st : State) (e : PyExn) :
  ytmusic_init env (inits st) = Some e
  \/ (ytmusic_init env (inits st) = None
      /\ ytmusic_search env (searches (log EvYTMusic st)) query "songs" = inl e) ->
  let res := search_and_download env query filename st in
  exists evs,
    res = (Ret (Some false),
           mkState (trace st ++ evs
                    ++ [EvPrint ("Error occurred during the search: " +:+ exn_msg e)])
                   (fs st))
    /\ (evs = [EvYTMusic] \/ evs = [EvYTMusic; EvSearch query "songs"])
    /\ posts (snd res) = posts st
    /\ no_transfer st (snd res).
Proof.
  intros H res. unfold inits, searches in H.
  assert (E : exists evs,
    res = (Ret (Some false),
           mkState (trace st ++ evs
                    ++ [EvPrint ("Error occurred during the search: " +:+ exn_msg e)])
                   (fs st))
    /\ (evs = [EvYTMusic] \/ evs = [EvYTMusic; EvSearch query "songs"])).
  { destruct H as [Hi | [Hi Hs]].
    - exists [EvYTMusic]. split; [|now left].
      subst res. unfold search_and_download, try_except.
      unfold bind at 1. unfold YTMusic. rewrite Hi.
      unfold bind, print, emit, log, ret. simpl. now rewrite <- !app_assoc.
    - exists [EvYTMusic; EvSearch query "songs"]. split; [|now right].
      subst res. unfold search_and_download, try_except.
      unfold bind at 1. unfold YTMusic. rewrite Hi.
      unfold ytmusic_search_call. rewrite Hs.
      unfold bind, print, emit, log, ret. simpl. now rewrite <- !app_assoc. }
  destruct E as (evs & E & Hevs). exists evs. rewrite E.
  split; [reflexivity|]. split; [exact Hevs|]. simpl snd.
  unfold no_transfer, posts, gets, writes. simpl.
  destruct Hevs as [-> | ->]; rewrite !count_events_app; simpl; repeat split; lia.
Qed.

(** ** The orchestrator (download_track and process_album) *)

Create HintDb grows.

Section Grows.

Variable env : Env.

Lemma grows_quiet {A} (m : M A) : quiet any_event m -> emits any_event m.
Proof. apply quiet_emits. Qed.

Lemma any_event_holds (e : Event) : any_event e.
Proof. exact I. Qed.

Ltac grows :=
  repeat first
    [ apply emits_ret
    | apply emits_emit; exact I
    | solve [auto with grows]
    | apply grows_quiet; first
        [ apply quiet_py_get | apply quiet_py_getitem
        | apply quiet_search_video | apply quiet_create_conversion_task
        | apply quiet_wait_for_conversion_completion | apply quiet_post_call ];
      intros; exact I
    | match goal with
      | |- emits _ (if ?c then _ else _) => destruct c
      | |- emits _ (match ?x with Some _ => _ | None => _ end) => destruct x
      end
    | apply emits_bind; [|intros ?] ].

Lemma grows_requests_get url : emits any_event (do_requests_get env url).
Proof.
  intros st. exists [EvGet url]. unfold do_requests_get.
  destruct (requests_get env _ url); simpl; (split; [reflexivity|now constructor]).
Qed.

Lemma grows_write_file filename data : emits any_event (write_file env filename data).
Proof.
  intros st. exists [EvWrite filename data]. unfold write_file.
  destruct (file_write env _ filename data); simpl; (split; [reflexivity|now constructor]).
Qed.

#[local] Hint Resolve grows_requests_get grows_write_file : grows.

Lemma grows_download_mp3 url filename : emits any_event (download_mp3 env url filename).
Proof. unfold download_mp3, print. grows. Qed.

#[local] Hint Resolve grows_download_mp3 : grows.

Lemma grows_download_link video_url filename max_retries :
  emits any_event (download_link env video_url filename max_retries).
Proof. unfold download_link, print. grows. Qed.

Lemma grows_YTMusic : emits any_event (YTMusic env).
Proof.
  intros st. exists [EvYTMusic]. unfold YTMusic.
  destruct (ytmusic_init env _); simpl; (split; [reflexivity|now constructor]).
Qed.

Lemma grows_ytmusic_search_call query filter :
  emits any_event (ytmusic_search_call env query filter).
Proof.
  intros st. exists [EvSearch query filter]. unfold ytmusic_search_call.
  destruct (ytmusic_search env _ query filter); simpl; (split; [reflexivity|now constructor]).
Qed.

#[local] Hint Resolve grows_download_link grows_YTMusic grows_ytmusic_search_call : grows.

Lemma grows_search_and_download query filename :
  emits any_event (search_and_download env query filename).
Proof.
  unfold search_and_download, print. apply emits_try_except.
  - grows.
  - intros e. grows.
  - intros [|first_result rest]; grows.
Qed.

#[local] Hint Resolve grows_search_and_download : grows.

Lemma grows_download_track artists title filename :
  emits any_event (download_track env artists title filename).
Proof.
  unfold download_track, print. grows.
Qed.

Lemma grows_process_tracks temp_dir ts : emits any_event (process_tracks env temp_dir ts).
Proof.
  induction ts as [|track rest IH]; simpl; [apply emits_ret|].
  destruct (track_artists track) as [artists|]; [|exact IH].
  destruct (length (files track) =? 0)%nat; [|exact IH].
  apply emits_bind; [apply grows_download_track|]. intros _.
  apply emits_bind; [apply emits_emit; exact I|]. intros _. exact IH.
Qed.

End Grows.

(** C10. For a track with artist metadata and no attached file, once the
    pipeline run has returned, with whatever outcome [r], the very next effect
    is [add_files] on the destination path, and the loop goes on from there:
    the path is attached after a failed download as well. *)
Theorem process_tracks_attaches_path
  (env : Env) (tmp : string) (track : Track) (rest : list Track) (st : State)
  (artists : list string) (r : option bool) (st1 : State) :
  track_artists track = Some artists ->
  length (files track) = 0%nat ->
  download_track env artists (track_title track) (track_filename tmp track) st
    = (Ret r, st1) ->
  process_tracks env tmp (track :: rest) st
  = process_tracks env tmp rest (log (EvAddFiles [track_filename tmp track]) st1)
  /\ exists evs,
       trace (snd (process_tracks env tmp (track :: rest) st))
       = trace st1 ++ EvAddFiles [track_filename tmp track] :: evs.
Proof.
  intros Ha Hf Hd.
  assert (E : process_tracks env tmp (track :: rest) st
              = process_tracks env tmp rest (log (EvAddFiles [track_filename tmp track]) st1)).
  { simpl. rewrite Ha, Hf. simpl.
    unfold track_filename in Hd. rewrite (bind_returns _ _ _ _ _ Hd).
    unfold tagger_add_files. now rewrite bind_emit. }
  split; [exact E|]. rewrite E.
  destruct (grows_process_tracks env tmp rest
              (log (EvAddFiles [track_filename tmp track]) st1)) as (evs & Ht & _).
  exists evs. rewrite Ht. simpl. now rewrite <- app_assoc.
Qed.

Lemma process_tracks_outcomes (env : Env) (tmp : string) (ts : list Track) : forall st,
  (exists st',
      process_tracks env tmp ts st = (Ret tt, st')
      /\ Attempted env tmp st (List.filter eligible ts) st')
  \/ (exists done track later artists s e st',
      List.filter eligible ts = done ++ track :: later
      /\ Attempted env tmp st done s
      /\ track_artists track = Some artists
      /\ download_track env artists (track_title track) (track_filename tmp track) s
         = (Raise e, st')
      /\ process_tracks env tmp ts st = (Raise e, st')).
Proof.
  induction ts as [|track rest IH]; intros st.
  - left. exists st. split; [reflexivity|constructor].
  - simpl process_tracks. simpl List.filter.
    destruct (track_artists track) as [artists|] eqn:Ha;
      [|replace (eligible track) with false by (unfold eligible; now rewrite Ha); apply IH].
    destruct (length (files track) =? 0)%nat eqn:Hf;
      [|replace (eligible track) with false by (unfold eligible; now rewrite Ha, Hf); apply IH].
    replace (eligible track) with true by (unfold eligible; now rewrite Ha, Hf).
    fold (track_filename tmp track).
    destruct (download_track env artists (track_title track) (track_filename tmp track) st)
      as [[r|e] st1] eqn:Hd.
    + rewrite (bind_returns _ _ _ _ _ Hd). unfold tagger_add_files. rewrite bind_emit.
      destruct (IH (log (EvAddFiles [track_filename tmp track]) st1))
        as [(st' & Hp & Hatt) | (done & t & later & arts & s & e & st' & Hl & Hatt & Hta & Hr & Hp)].
      * left. exists st'. split; [exact Hp|]. econstructor; eassumption.
      * right. exists (track :: done), t, later, arts, s, e, st'.
        split; [simpl; now rewrite Hl|].
        split; [econstructor; eassumption|]. auto.
    + right. exists [], track, (List.filter eligible rest), artists, st, e, st1.
      split; [reflexivity|]. split; [constructor|]. split; [exact Ha|].
      split; [exact Hd|]. now rewrite (bind_raises _ _ _ _ _ Hd).
Qed.

(** X19. The batch driver has no handler of its own.  A run that reports its
    failure by returning ([False] or [None]) never stops the loop: if every
    run returns, [process_album] returns having attempted every track that has
    artist metadata and no file, in order.  Otherwise the first run that
    raises (an HTTP failure raised by [post_call], say) ends [process_album]
    with that very exception, and the tracks after it are not attempted. *)
Theorem process_album_isolation (env : Env) (album : Album) (st : State) :
  let tmp := mkdtemp env (count_events is_mkdtemp (trace st)) in
  let todo := List.filter eligible (tracks album) in
  (exists st',
      process_album env (AlbumObject album) st = (Ret tt, st')
      /\ Attempted env tmp (log EvMkdtemp st) todo st')
  \/ (exists done track later artists s e st',
      todo = done ++ track :: later
      /\ Attempted env tmp (log EvMkdtemp st) done s
      /\ track_artists track = Some artists
      /\ download_track env artists (track_title track) (track_filename tmp track) s
         = (Raise e, st')
      /\ process_album env (AlbumObject album) st = (Raise e, st')).
Proof.
  intros tmp todo.
  assert (E : process_album env (AlbumObject album) st
              = process_tracks env tmp (tracks album) (log EvMkdtemp st)) by reflexivity.
  rewrite E. apply process_tracks_outcomes.
Qed.

(** * Concrete runs *)

Import Scenario.

(** Scenario A, end to end: success, the fetched bytes on disk, two polls
    (the third request to the task endpoint is the final read) and one sleep. *)
Example scenario_A :
  let res := search_and_download env_A "Artist X Song Y" "/tmp/tmpab12/Song Y.mp3" st0 in
  fst res = Ret (Some true)
  /\ fs (snd res) !! "/tmp/tmpab12/Song Y.mp3" = Some mp3
  /\ count_events
       (fun e => match e with
                 | EvPost url _ => String.eqb url TASK_URL
                 | _ => false
                 end) (trace (snd res)) = 3%nat
  /\ sleeps (snd res) = 1%nat.
Proof. vm_compute. repeat split. Qed.

(** Scenario B: no task is created and nothing is written. *)
Example scenario_B :
  let res := search_and_download env_B "Artist X Song Y" "/tmp/tmpab12/Song Y.mp3" st0 in
  fst res = Ret (Some false)
  /\ posts (snd res) = 1%nat
  /\ fs (snd res) !! "/tmp/tmpab12/Song Y.mp3" = None.
Proof. vm_compute. repeat split. Qed.

(** Scenario C with [max_retries = 2]: three polls, then [False]. *)
Example scenario_C :
  let res := download_link env_C "https://music.youtube.com/watch?v=abc123" "f.mp3" 2 st0 in
  fst res = Ret false
  /\ posts (snd res) = 5%nat
  /\ sleeps (snd res) = 3%nat
  /\ fs (snd res) !! "f.mp3" = None.
Proof. vm_compute. repeat split. Qed.

(** C1. The code at the input where it departs from the claim: an album of
    two tracks to download, and a conversion service answering the variant
    discovery of the first with a 500.  The [HTTPError] raised by [post_call]
    is caught nowhere: it leaves [process_album], and the trace stops at the
    failed POST, before anything is done for the second track. *)
Example process_album_http_500 :
  process_album env_500 (AlbumObject album_ab) st0
  = (Raise (mkExn HTTPError
              "500 Server Error: Internal Server Error for url: https://music.yt2api.com/api/json"),
     mkState [EvMkdtemp;
              EvPrint "Downloading Song Y...";
              EvYTMusic;
              EvSearch "Artist X Song Y" "songs";
              EvPrint "-------------";
              EvPrint "Title:   Song Y";
              EvPrint "Album:   Album Z";
              EvPrint "Origin:  https://music.youtube.com/watch?v=abc123";
              EvPrint "Save To: /tmp/tmpab12/Song Y.mp3";
              EvPrint "-------------";
              EvPrint "Search for video https://music.youtube.com/watch?v=abc123.";
              EvPost BASE_URL
                (VDict [("ftype", VStr "mp3");
                        ("url", VStr "https://music.youtube.com/watch?v=abc123")])]
             ∅).
Proof. vm_compute. reflexivity. Qed.

(** * The theorems at concrete inputs *)

Lemma create_conversion_task_no_match_witness :
  create_conversion_task env_B
    (VDict [("tasks", VList (map VDict [variant "h0" 128; variant "h2" 320]))]) 192 st0
  = (Ret VNone, st0).
Proof.
  apply (create_conversion_task_no_match env_B
           [("tasks", VList (map VDict [variant "h0" 128; variant "h2" 320]))]
           [variant "h0" 128; variant "h2" 320] 192 st0).
  - reflexivity.
  - repeat constructor.
Defined.

Lemma create_conversion_task_first_match_witness :
  snd (create_conversion_task env_A
         (VDict [("tasks", VList (map VDict [variant "h0" 128; variant "h1" 192;
                                             variant "h9" 192]))]) 192 st0)
  = log (EvPost BASE_URL (VDict [("hash", VStr "h1")])) st0.
Proof.
  apply (create_conversion_task_first_match env_A
           [("tasks", VList (map VDict [variant "h0" 128; variant "h1" 192; variant "h9" 192]))]
           [variant "h0" 128] (variant "h1" 192) [variant "h9" 192] 192 st0).
  - reflexivity.
  - repeat constructor.
  - reflexivity.
Defined.

Lemma wait_for_conversion_completion_bounded_witness :
  wait_for_conversion_completion env_poll (VStr "t1") 2 st0
  = (Ret true,
     mkState [EvPost TASK_URL (poll_data (VStr "t1")); EvPrint "Waiting..."; EvSleep 1;
              EvPost TASK_URL (poll_data (VStr "t1"))] ∅).
Proof.
  destruct (wait_for_conversion_completion_bounded env_poll (VStr "t1") 2 st0)
    as (_ & Hfin & _); [lia|].
  destruct (Hfin 1%nat) as (E & _).
  - simpl. lia.
  - reflexivity.
  - intros j Hj. assert (j = 0%nat) as -> by lia. reflexivity.
  - exact E.
Defined.

Lemma wait_for_conversion_completion_negative_budget_witness :
  wait_for_conversion_completion env_poll (VStr "t1") (-1) st0 = (Ret false, st0).
Proof.
  destruct (wait_for_conversion_completion_negative_budget env_poll (VStr "t1") (-1) st0)
    as (Hneg & _).
  destruct Hneg as (E & _); [lia|exact E].
Defined.

Lemma download_mp3_status_200_witness :
  download_mp3 env_A (VStr "https://cdn.example/f.mp3") "f.mp3" st0
  = (Ret true,
     mkState [EvGet (VStr "https://cdn.example/f.mp3"); EvWrite "f.mp3" mp3]
             (<["f.mp3" := mp3]> ∅)).
Proof.
  destruct (download_mp3_status_200 env_A (VStr "https://cdn.example/f.mp3") "f.mp3" st0
              (mkResponse 200 "OK" None mp3) eq_refl) as (_ & Hok).
  destruct (Hok eq_refl) as (E & _). exact E.
Defined.

Lemma download_link_missing_url_witness :
  fst (download_link env_no_url "https://music.youtube.com/watch?v=abc123" "f.mp3" 10 st0)
  = Ret false
  /\ no_transfer st0
       (snd (download_link env_no_url "https://music.youtube.com/watch?v=abc123" "f.mp3" 10 st0)).
Proof.
  edestruct (download_link_missing_url env_no_url
               "https://music.youtube.com/watch?v=abc123" "f.mp3" 10 st0) as (E & N).
  - lazy. reflexivity.
  - lazy. reflexivity.
  - reflexivity.
  - lazy. reflexivity.
  - lazy. reflexivity.
  - left. reflexivity.
  - split; [now rewrite E|exact N].
Defined.

Lemma search_and_download_not_found_witness :
  search_and_download env_empty "Artist X Song Y" "f.mp3" st0
  = (Ret (Some false),
     mkState [EvYTMusic; EvSearch "Artist X Song Y" "songs"; EvPrint "Song not found."] ∅).
Proof.
  destruct (search_and_download_not_found env_empty "Artist X Song Y" "f.mp3" st0
              eq_refl eq_refl) as (E & _).
  exact E.
Defined.

Lemma search_and_download_catches_search_error_witness :
  fst (search_and_download env_search_error "Artist X Song Y" "f.mp3" st0) = Ret (Some false).
Proof.
  destruct (search_and_download_catches_search_error env_search_error
              "Artist X Song Y" "f.mp3" st0 timeout_error) as (evs & E & _).
  - right. split; reflexivity.
  - now rewrite E.
Defined.

Lemma process_tracks_attaches_path_witness :
  exists evs,
    trace (snd (process_tracks env_empty "/tmp/tmpab12" [track_a; track_b] st0))
    = [EvPrint "Downloading Song Y..."; EvYTMusic; EvSearch "Artist X Song Y" "songs";
       EvPrint "Song not found."; EvPrint "Failed to download Song Y."]
      ++ EvAddFiles ["/tmp/tmpab12/Song Y.mp3"] :: evs.
Proof.
  edestruct (process_tracks_attaches_path env_empty "/tmp/tmpab12" track_a [track_b] st0
               ["Artist X"] (Some false)) as (_ & evs & E).
  - reflexivity.
  - reflexivity.
  - reflexivity.
  - exists evs. exact E.
Defined.

(** C4, as stated, fails: a fetch answered 204 has a success status, and
    [download_mp3] still returns [False]. *)
Lemma download_mp3_fails_on_204 : ~ download_fails_exactly_on_non_success.
Proof.
  intros H.
  destruct (H env_204 (VStr "https://cdn.example/f.mp3") "f.mp3" st0 no_content eq_refl)
    as [Hfail _].
  specialize (Hfail eq_refl). discriminate Hfail.
Qed.

(** Isolation of every failure does not hold of the code: with the
    conversion service answering 500, the run of the first track raises
    instead of returning, so it is no attempt in the sense of [Attempted],
    and the second track is never reached. *)
Lemma batch_isolation_fails_on_http_error : ~ batch_isolates_every_failure.
Proof.
  intros H. destruct (H env_500 album_ab st0) as [st' Hatt].
  simpl in Hatt. inversion Hatt as [|? ? artists r st1 ? ? Ha Hd _]; subst.
  injection Ha as <-.
  vm_compute in Hd. discriminate Hd.
Qed.

(** C9, as stated, fails: with a budget of 2 (three iterations) and the
    second reply reading "finished", two status queries are made, not
    three. *)
Lemma queries_stop_at_finished : ~ queries_equal_budget.
Proof.
  intros H. specialize (H env_poll (VStr "t1") 2 st0).
  vm_compute in H. discriminate H.
Qed.

(** * More about the code *)

Import Cases.

(** ** post_call *)

Lemma response_ok_range url r :
  response_ok url r = true <-> ~ (400 <= status_code r < 600).
Proof.
  unfold response_ok, raise_for_status.
  destruct (400 <=? status_code r) eqn:E1, (status_code r <? 500) eqn:E2,
           (500 <=? status_code r) eqn:E3, (status_code r <? 600) eqn:E4; simpl;
    split; intros H; try discriminate; try reflexivity; try lia; exfalso; apply H; lia.
Qed.

(** X1. A POST answered with a 4xx or 5xx status makes [post_call] raise an
    [HTTPError]: it does not return [None].  The request went to the task
    endpoint when [is_task] is set and to the base endpoint otherwise, and
    it is the only effect. *)
Theorem post_call_http_error
  (env : Env) (data : pyval) (is_task : bool) (st : State) (r : Response) :
  let url := if is_task then TASK_URL else BASE_URL in
  requests_post env (posts st) url data = inr r ->
  400 <= status_code r < 600 ->
  exists msg,
    post_call env data is_task st
    = (Raise (mkExn HTTPError msg), log (EvPost url data) st).
Proof.
  intros url Hr Hs. unfold post_call, bind, do_requests_post.
  unfold posts in Hr. fold url. rewrite Hr.
  assert (Hok : response_ok url r = false).
  { destruct (response_ok url r) eqn:E; [|reflexivity].
    apply response_ok_range in E. contradiction. }
  rewrite Hok. unfold raise_for_status.
  destruct ((400 <=? status_code r) && (status_code r <? 500)) eqn:E1.
  - eexists. reflexivity.
  - destruct ((500 <=? status_code r) && (status_code r <? 600)) eqn:E2.
    + eexists. reflexivity.
    + exfalso. apply andb_false_iff in E1, E2. lia.
Qed.

(** X2. Whatever [post_call] returns is the decoded JSON body of a response
    whose status is outside 4xx/5xx: the [None] that would follow the [else]
    branch is never produced, and a returned [None] can only be a JSON
    [null]. *)
Theorem post_call_returns_only_json
  (env : Env) (data : pyval) (is_task : bool) (st st' : State) (v : pyval) :
  post_call env data is_task st = (Ret v, st') ->
  let url := if is_task then TASK_URL else BASE_URL in
  exists r,
    requests_post env (posts st) url data = inr r
    /\ ~ (400 <= status_code r < 600)
    /\ json_body r = Some v
    /\ st' = log (EvPost url data) st.
Proof.
  intros H url. unfold post_call, bind, do_requests_post in H. fold url in H.
  unfold posts.
  destruct (requests_post env (count_events is_post (trace st)) url data) as [e|r];
    [discriminate|].
  exists r. destruct (response_ok url r) eqn:Hok.
  - unfold response_json in H. destruct (json_body r) as [w|]; [|discriminate].
    injection H as <- <-. repeat split. now apply response_ok_range in Hok.
  - destruct (post_call_else_raises url r Hok) as [e He]. rewrite He in H. discriminate.
Qed.

(** ** create_conversion_task *)

Lemma py_iter_state v st : snd (py_iter v st) = st.
Proof. destruct v; reflexivity. Qed.

Lemma posts_log_post url data st : posts (log (EvPost url data) st) = S (posts st).
Proof. unfold posts, log. simpl. rewrite count_events_app. simpl. lia. Qed.

Lemma posts_log_print line st : posts (log (EvPrint line) st) = posts st.
Proof. unfold posts, log. simpl. rewrite count_events_app. simpl. lia. Qed.

Lemma create_conversion_task_loop_posts env items bitrate : forall st,
  (posts (snd (create_conversion_task_loop env items bitrate st)) <= posts st + 1)%nat.
Proof.
  induction items as [|task rest IH]; intros st; simpl; [lia|].
  unfold bind at 1.
  pose proof (py_get_state task "bitrate" VNone st) as Hb.
  destruct (py_get task "bitrate" VNone st) as [[b|e] s1]; simpl in Hb; subst s1;
    [|simpl; lia].
  destruct (py_eq_int b bitrate); [|apply IH].
  unfold bind at 1.
  pose proof (py_get_state task "hash" VNone st) as Hh.
  destruct (py_get task "hash" VNone st) as [[h|e] s1]; simpl in Hh; subst s1;
    [|simpl; lia].
  unfold bind at 1.
  pose proof (post_call_state env (VDict [("hash", h)]) false st) as Hp.
  destruct (post_call env (VDict [("hash", h)]) false st) as [[r|e] s2];
    simpl in Hp; subst s2.
  - rewrite py_get_state, posts_log_post. lia.
  - simpl. rewrite posts_log_post. lia.
Qed.

(** X3. One call of [create_conversion_task] issues at most one request,
    whatever the variant list looks like (several matching variants,
    malformed entries) and whatever the service answers. *)
Theorem create_conversion_task_at_most_one_post
  (env : Env) (tasks : pyval) (bitrate : Z) (st : State) :
  (posts (snd (create_conversion_task env tasks bitrate st)) <= posts st + 1)%nat.
Proof.
  unfold create_conversion_task. unfold bind at 1.
  pose proof (py_get_state tasks "tasks" (VList []) st) as Hg.
  destruct (py_get tasks "tasks" (VList []) st) as [[seq|e] s1]; simpl in Hg; subst s1;
    [|simpl; lia].
  unfold bind at 1.
  pose proof (py_iter_state seq st) as Hi.
  destruct (py_iter seq st) as [[items|e] s1]; simpl in Hi; subst s1; [|simpl; lia].
  apply create_conversion_task_loop_posts.
Qed.

(** ** wait_for_conversion_completion *)

Lemma pending_rounds_snoc data n :
  pending_rounds data (S n) = pending_rounds data n ++ pending_round data.
Proof.
  induction n as [|n IH]; [reflexivity|].
  change (pending_round data ++ pending_rounds data (S n)
          = (pending_round data ++ pending_rounds data n) ++ pending_round data).
  rewrite IH. now rewrite app_assoc.
Qed.

Lemma posts_after_rounds data k st :
  posts (mkState (trace st ++ pending_rounds data k) (fs st)) = (posts st + k)%nat.
Proof. unfold posts. simpl. now rewrite count_events_app, posts_pending_rounds. Qed.

(** [k] pending replies consume [k] iterations. *)
Lemma wait_loop_skip_pending env data k : forall n st,
  (forall i, (i < k)%nat ->
     reply_status (requests_post env (posts st + i)%nat TASK_URL data) = Some false) ->
  wait_loop env data (k + n) st
  = wait_loop env data n (mkState (trace st ++ pending_rounds data k) (fs st)).
Proof.
  induction k as [|k IH]; intros n st H.
  - simpl. rewrite app_nil_r. now destruct st.
  - change (S k + n)%nat with (S (k + n)).
    rewrite wait_loop_step_pending.
    + rewrite IH.
      * simpl trace. simpl fs. simpl pending_rounds. now rewrite <- app_assoc.
      * intros i Hi. rewrite posts_after_round.
        replace (S (posts st) + i)%nat with (posts st + S i)%nat by lia.
        apply H. lia.
    + specialize (H 0%nat). rewrite Nat.add_0_r in H. apply H. lia.
Qed.

Lemma wait_loop_step_raise env data n st e :
  requests_post env (posts st) TASK_URL data = inl e ->
  wait_loop env data (S n) st = (Raise e, log (EvPost TASK_URL data) st).
Proof.
  intros H. simpl. unfold bind at 1. unfold post_call, bind, do_requests_post.
  unfold posts in H. now rewrite H.
Qed.

(** X4. An exception raised by the request of a poll is not retried and not
    turned into [False]: after [k] pending replies, when poll [k + 1] raises,
    [wait_for_conversion_completion] raises that exception at once, with the
    rest of the budget unused. *)
Theorem wait_for_conversion_completion_propagates_error
  (env : Env) (task_id : pyval) (max_retries : Z) (st : State) (k : nat) (e : PyExn) :
  0 <= max_retries ->
  (k <= Z.to_nat max_retries)%nat ->
  (forall j, (j < k)%nat -> reply_status (poll_reply env st task_id j) = Some false) ->
  poll_reply env st task_id k = inl e ->
  wait_for_conversion_completion env task_id max_retries st
  = (Raise e,
     mkState (trace st ++ pending_rounds (poll_data task_id) k
              ++ [EvPost TASK_URL (poll_data task_id)]) (fs st)).
Proof.
  intros Hm Hk Hpend Hraise.
  rewrite wait_for_conversion_completion_unfold.
  replace (Z.to_nat (max_retries + 1)) with (k + S (Z.to_nat max_retries - k))%nat by lia.
  rewrite wait_loop_skip_pending by exact Hpend.
  rewrite wait_loop_step_raise with (e := e).
  - unfold log. simpl. now rewrite <- app_assoc.
  - rewrite posts_after_rounds. exact Hraise.
Qed.

(** X5. When the budget runs out the poller has slept once per query, the
    last one included: it returns [False] only after a final second of sleep
    that no query follows. *)
Theorem wait_for_conversion_completion_sleeps_before_giving_up
  (env : Env) (task_id : pyval) (max_retries : Z) (st : State) :
  0 <= max_retries ->
  (forall i, (i <= Z.to_nat max_retries)%nat ->
     reply_status (poll_reply env st task_id i) = Some false) ->
  let res := wait_for_conversion_completion env task_id max_retries st in
  fst res = Ret false
  /\ sleeps (snd res) = (sleeps st + Z.to_nat max_retries + 1)%nat
  /\ last (trace (snd res)) = Some (EvSleep 1).
Proof.
  intros Hm Hpend res. subst res.
  rewrite wait_for_conversion_completion_unfold.
  replace (Z.to_nat (max_retries + 1)) with (S (Z.to_nat max_retries)) by lia.
  rewrite wait_loop_all_pending.
  - split; [reflexivity|]. split.
    + unfold sleeps. cbn [snd trace].
      rewrite count_events_app, sleeps_pending_rounds. lia.
    + cbn [snd trace]. rewrite pending_rounds_snoc. unfold pending_round.
      change [EvPost TASK_URL (poll_data task_id); EvPrint "Waiting..."; EvSleep 1]
        with ([EvPost TASK_URL (poll_data task_id); EvPrint "Waiting..."] ++ [EvSleep 1]).
      rewrite !app_assoc. apply last_snoc.
  - intros i Hi. apply Hpend. lia.
Qed.

(** ** download_link, end to end *)

Lemma post_call_json_reply env data (is_task : bool) st v :
  json_reply (requests_post env (posts st) (if is_task then TASK_URL else BASE_URL) data) v ->
  post_call env data is_task st
  = (Ret v, log (EvPost (if is_task then TASK_URL else BASE_URL) data) st).
Proof.
  intros (r & Hr & Hs & Hj). apply post_call_ok with (r := r); [exact Hr| |exact Hj].
  now apply response_ok_range.
Qed.

Lemma create_conversion_task_scan env entries pre rest bitrate st :
  dict_get "tasks" (VList []) entries = VList (map VDict pre ++ rest) ->
  Forall (fun v => py_eq_int (dict_get "bitrate" VNone v) bitrate = false) pre ->
  create_conversion_task env (VDict entries) bitrate st
  = create_conversion_task_loop env rest bitrate st.
Proof.
  intros Ht Hpre. unfold create_conversion_task.
  rewrite (bind_returns _ _ _ _ _ (py_get_dict entries "tasks" (VList []) st)), Ht.
  unfold bind at 1. simpl py_iter. unfold ret at 1.
  now apply create_conversion_task_loop_skip.
Qed.

Lemma gets_pending_rounds data n : count_events is_get (pending_rounds data n) = 0%nat.
Proof. induction n as [|n IH]; simpl; [reflexivity|exact IH]. Qed.

Section DownloadLink.

Variable env : Env.
Variables (video_url filename : string) (max_retries : Z).

(** X6. When the variant discovery lists no 192 kbps variant, [download_link]
    says so and returns [False] after that single request: no task is
    created, nothing is polled, fetched or written. *)
Theorem download_link_no_variant
  (st : State) (entries : list (string * pyval)) (variants : list (list (string * pyval))) :
  json_reply (requests_post env (posts st) BASE_URL (discovery_data video_url))
             (VDict entries) ->
  dict_get "tasks" (VList []) entries = VList (map VDict variants) ->
  Forall (fun v => py_eq_int (dict_get "bitrate" VNone v) BITRATE_192 = false) variants ->
  download_link env video_url filename max_retries st
  = (Ret false,
     mkState (trace st
              ++ [EvPrint ("Search for video " +:+ video_url +:+ ".");
                  EvPost BASE_URL (discovery_data video_url);
                  EvPrint "No suitable task found for conversion."])
             (fs st)).
Proof.
  intros H1 Ht Hv. unfold download_link. rewrite bind_print.
  rewrite <- (posts_log_print ("Search for video " +:+ video_url +:+ ".") st) in H1.
  unfold search_video.
  rewrite (bind_returns _ _ _ _ _
             (bind_returns _ (fun response => ret response) _ _ _
                (post_call_json_reply env _ false _ _ H1))).
  rewrite <- (app_nil_r (map VDict variants)) in Ht.
  unfold bind at 1. rewrite (create_conversion_task_scan _ _ _ _ _ _ Ht Hv).
  simpl. unfold bind, print, emit, ret, log. simpl. now rewrite <- !app_assoc.
Qed.

Variables (entries : list (string * pyval))
          (pre : list (list (string * pyval))) (v : list (string * pyval))
          (post : list (list (string * pyval))) (d2 : list (string * pyval)).

(** Up to the task id: discovery, scan, creation. *)
Lemma download_link_requests_task st :
  json_reply (requests_post env (posts st) BASE_URL (discovery_data video_url))
             (VDict entries) ->
  dict_get "tasks" (VList []) entries = VList (map VDict (pre ++ v :: post)) ->
  Forall (fun w => py_eq_int (dict_get "bitrate" VNone w) BITRATE_192 = false) pre ->
  py_eq_int (dict_get "bitrate" VNone v) BITRATE_192 = true ->
  json_reply (requests_post env (S (posts st)) BASE_URL (creation_data v)) (VDict d2) ->
  download_link env video_url filename max_retries st
  = (if negb (py_truthy (dict_get "taskId" VNone d2)) then
       fun s => (Ret false, log (EvPrint "No suitable task found for conversion.") s)
     else
       download_link_after_task env (dict_get "taskId" VNone d2) filename max_retries)
      (mkState (trace st ++ task_requested video_url v) (fs st)).
Proof.
  intros H1 Ht Hpre Hv H2. unfold download_link. rewrite bind_print.
  rewrite <- (posts_log_print ("Search for video " +:+ video_url +:+ ".") st) in H1, H2.
  unfold search_video.
  rewrite (bind_returns _ _ _ _ _
             (bind_returns _ (fun response => ret response) _ _ _
                (post_call_json_reply env _ false _ _ H1))).
  rewrite map_app in Ht. simpl map in Ht.
  rewrite <- posts_log_post with (url := BASE_URL) (data := discovery_data video_url) in H2.
  match goal with |- bind _ _ ?s = _ => set (s1 := s) in * end.
  assert (Hc : create_conversion_task env (VDict entries) BITRATE_192 s1
               = (Ret (dict_get "taskId" VNone d2),
                  log (EvPost BASE_URL (creation_data v)) s1)).
  { rewrite (create_conversion_task_scan _ _ _ _ _ _ Ht Hpre). simpl.
    rewrite (bind_returns _ _ _ _ _ (py_get_dict v "bitrate" VNone s1)), Hv.
    rewrite (bind_returns _ _ _ _ _ (py_get_dict v "hash" VNone s1)).
    rewrite (bind_returns _ _ _ _ _ (post_call_json_reply env _ false _ _ H2)).
    apply py_get_dict. }
  rewrite (bind_returns _ _ _ _ _ Hc).
  assert (Hs : log (EvPost BASE_URL (creation_data v)) s1
               = mkState (trace st ++ task_requested video_url v) (fs st)).
  { subst s1. unfold log, task_requested. simpl. now rewrite <- !app_assoc. }
  rewrite Hs. destruct (negb (py_truthy (dict_get "taskId" VNone d2))); reflexivity.
Qed.

Lemma posts_task_requested st :
  posts (mkState (trace st ++ task_requested video_url v) (fs st)) = (posts st + 2)%nat.
Proof. unfold posts. simpl. rewrite count_events_app. simpl. lia. Qed.

Lemma gets_task_requested st :
  gets (mkState (trace st ++ task_requested video_url v) (fs st)) = gets st.
Proof. unfold gets. simpl. rewrite count_events_app. simpl. lia. Qed.

Lemma writes_task_requested st :
  writes (mkState (trace st ++ task_requested video_url v) (fs st)) = writes st.
Proof. unfold writes. simpl. rewrite count_events_app. simpl. lia. Qed.

(** X9. A creation reply without a usable task id (no "taskId" entry, an
    empty or null one) is reported like a missing variant: [download_link]
    returns [False] with "No suitable task found", although the creation
    request was sent; nothing is polled. *)
Theorem download_link_no_task_id (st : State) :
  json_reply (requests_post env (posts st) BASE_URL (discovery_data video_url))
             (VDict entries) ->
  dict_get "tasks" (VList []) entries = VList (map VDict (pre ++ v :: post)) ->
  Forall (fun w => py_eq_int (dict_get "bitrate" VNone w) BITRATE_192 = false) pre ->
  py_eq_int (dict_get "bitrate" VNone v) BITRATE_192 = true ->
  json_reply (requests_post env (S (posts st)) BASE_URL (creation_data v)) (VDict d2) ->
  py_truthy (dict_get "taskId" VNone d2) = false ->
  download_link env video_url filename max_retries st
  = (Ret false,
     mkState (trace st ++ task_requested video_url v
              ++ [EvPrint "No suitable task found for conversion."])
             (fs st)).
Proof.
  intros H1 Ht Hpre Hv H2 Hid.
  rewrite (download_link_requests_task st H1 Ht Hpre Hv H2), Hid.
  unfold log. simpl. now rewrite <- !app_assoc.
Qed.

End DownloadLink.

Lemma writes_pending_rounds data n : count_events is_write (pending_rounds data n) = 0%nat.
Proof. induction n as [|n IH]; simpl; [reflexivity|exact IH]. Qed.

Lemma download_mp3_written env url filename st r :
  requests_get env (gets st) url = inr r ->
  status_code r = 200 ->
  file_write env (writes st) filename (content r) = Written ->
  download_mp3 env url filename st
  = (Ret true,
     mkState (trace st ++ [EvGet url; EvWrite filename (content r)])
             (<[filename := content r]> (fs st))).
Proof.
  intros Hg Hs Hw. unfold gets in Hg.
  unfold download_mp3, bind, do_requests_get. rewrite Hg, Hs. simpl.
  unfold write_file. rewrite writes_after_get, Hw.
  unfold log, ret. simpl. now rewrite <- app_assoc.
Qed.

Section AfterTask.

Variable env : Env.
Variables (task_id : pyval) (filename : string) (max_retries : Z).

Lemma after_task_times_out s :
  0 <= max_retries ->
  (forall i, (i <= Z.to_nat max_retries)%nat ->
     reply_status (requests_post env (posts s + i)%nat TASK_URL (poll_data task_id))
     = Some false) ->
  download_link_after_task env task_id filename max_retries s
  = (Ret false,
     mkState (trace s ++ [EvPrint "Wait for conversion."]
              ++ pending_rounds (poll_data task_id) (Z.to_nat max_retries + 1)
              ++ [EvPrint "Conversion not completed within the specified time."])
             (fs s)).
Proof.
  intros Hm Hp. unfold download_link_after_task. rewrite bind_print.
  assert (Hw : wait_for_conversion_completion env task_id max_retries
                 (log (EvPrint "Wait for conversion.") s)
               = (Ret false,
                  mkState (trace (log (EvPrint "Wait for conversion.") s)
                           ++ pending_rounds (poll_data task_id) (Z.to_nat max_retries + 1))
                          (fs (log (EvPrint "Wait for conversion.") s)))).
  { rewrite wait_for_conversion_completion_unfold.
    replace (Z.to_nat (max_retries + 1)) with (Z.to_nat max_retries + 1)%nat by lia.
    apply wait_loop_all_pending. intros i Hi. rewrite posts_log_print. apply Hp. lia. }
  rewrite (bind_returns _ _ _ _ _ Hw).
  unfold bind, print, emit, ret, log. simpl. now rewrite <- !app_assoc.
Qed.

Lemma after_task_success s (k : nat) (d4 : list (string * pyval)) (r : Response) :
  0 <= max_retries ->
  (k <= Z.to_nat max_retries)%nat ->
  (forall j, (j < k)%nat ->
     reply_status (requests_post env (posts s + j)%nat TASK_URL (poll_data task_id))
     = Some false) ->
  reply_status (requests_post env (posts s + k)%nat TASK_URL (poll_data task_id))
  = Some true ->
  json_reply (requests_post env (posts s + k + 1)%nat TASK_URL (poll_data task_id))
             (VDict d4) ->
  py_truthy (dict_get "download" VNone d4) = true ->
  requests_get env (gets s) (dict_get "download" VNone d4) = inr r ->
  status_code r = 200 ->
  file_write env (writes s) filename (content r) = Written ->
  download_link_after_task env task_id filename max_retries s
  = (Ret true,
     mkState (trace s ++ [EvPrint "Wait for conversion."]
              ++ pending_rounds (poll_data task_id) k
              ++ [EvPost TASK_URL (poll_data task_id);
                  EvPrint "Downloading.";
                  EvPost TASK_URL (poll_data task_id);
                  EvGet (dict_get "download" VNone d4);
                  EvWrite filename (content r)])
             (<[filename := content r]> (fs s))).
Proof.
  intros Hm Hk Hp Hf H4 Hu Hg Hs Hwr. unfold download_link_after_task. rewrite bind_print.
  set (s1 := log (EvPrint "Wait for conversion.") s).
  assert (Hp1 : posts s1 = posts s) by apply posts_log_print.
  assert (Hw : wait_for_conversion_completion env task_id max_retries s1
               = (Ret true,
                  mkState (trace s1 ++ pending_rounds (poll_data task_id) k
                           ++ [EvPost TASK_URL (poll_data task_id)]) (fs s1))).
  { rewrite wait_for_conversion_completion_unfold.
    apply wait_loop_first_finished; [lia| |now rewrite Hp1].
    intros j Hj. rewrite Hp1. now apply Hp. }
  rewrite (bind_returns _ _ _ _ _ Hw). change (negb true) with false. cbv iota.
  rewrite bind_print.
  match goal with |- bind _ _ ?st = _ => set (s2 := st) end.
  assert (Hp2 : posts s2 = (posts s + k + 1)%nat).
  { subst s2 s1. unfold posts, log. simpl.
    rewrite !count_events_app, posts_pending_rounds. simpl. lia. }
  assert (Hg2 : gets (log (EvPost TASK_URL (poll_data task_id)) s2) = gets s).
  { subst s2 s1. unfold gets, log. simpl.
    rewrite !count_events_app, gets_pending_rounds. simpl. lia. }
  rewrite <- Hp2 in H4.
  rewrite (bind_returns _ _ _ _ _ (post_call_json_reply env _ true _ _ H4)).
  rewrite (bind_returns _ _ _ _ _ (py_get_dict d4 "download" VNone _)), Hu.
  change (negb true) with false. cbv iota.
  assert (Hw2 : writes (log (EvPost TASK_URL (poll_data task_id)) s2) = writes s).
  { subst s2 s1. unfold writes, log. simpl.
    rewrite !count_events_app, writes_pending_rounds. simpl. lia. }
  rewrite <- Hg2 in Hg. rewrite <- Hw2 in Hwr.
  rewrite (download_mp3_written _ _ _ _ _ Hg Hs Hwr).
  subst s2 s1. unfold log, poll_data. simpl. now rewrite <- !app_assoc.
Qed.

End AfterTask.

Section DownloadLinkRuns.

Variable env : Env.
Variables (video_url filename : string) (max_retries : Z).
Variables (entries : list (string * pyval))
          (pre : list (list (string * pyval))) (v : list (string * pyval))
          (post : list (list (string * pyval))) (d2 : list (string * pyval)).

(** X7. A task that never reads "finished" within the budget: after
    discovery, creation and [max_retries + 1] rounds of polling,
    [download_link] returns [False]; the final read of the task is not
    issued and nothing is fetched or written. *)
Theorem download_link_times_out (st : State) :
  json_reply (requests_post env (posts st) BASE_URL (discovery_data video_url))
             (VDict entries) ->
  dict_get "tasks" (VList []) entries = VList (map VDict (pre ++ v :: post)) ->
  Forall (fun w => py_eq_int (dict_get "bitrate" VNone w) BITRATE_192 = false) pre ->
  py_eq_int (dict_get "bitrate" VNone v) BITRATE_192 = true ->
  json_reply (requests_post env (S (posts st)) BASE_URL (creation_data v)) (VDict d2) ->
  py_truthy (dict_get "taskId" VNone d2) = true ->
  0 <= max_retries ->
  (forall i, (i <= Z.to_nat max_retries)%nat ->
     reply_status (requests_post env (posts st + 2 + i)%nat TASK_URL
                     (poll_data (dict_get "taskId" VNone d2))) = Some false) ->
  download_link env video_url filename max_retries st
  = (Ret false,
     mkState (trace st ++ task_requested video_url v
              ++ [EvPrint "Wait for conversion."]
              ++ pending_rounds (poll_data (dict_get "taskId" VNone d2))
                                (Z.to_nat max_retries + 1)
              ++ [EvPrint "Conversion not completed within the specified time."])
             (fs st)).
Proof.
  intros H1 Ht Hpre Hv H2 Hid Hm Hp.
  rewrite (download_link_requests_task env video_url filename max_retries
             entries pre v post d2 st H1 Ht Hpre Hv H2), Hid.
  change (negb true) with false. cbv iota.
  rewrite after_task_times_out.
  - simpl trace. simpl fs. now rewrite <- !app_assoc.
  - exact Hm.
  - intros i Hi. rewrite posts_task_requested. now apply Hp.
Qed.

(** X8. The whole successful run: a 192 kbps variant is listed, its task is
    created, reply [k + 1] of the polling is the first "finished", the final
    read carries a download URL, the fetch is answered 200 and the
    destination can be opened and written.  Then [download_link] returns
    [True], the trace is exactly discovery, creation, [k] pending rounds, the
    successful poll, the final read, the fetch and the write, and the file
    system gains the fetched content at [filename]. *)
Theorem download_link_success
  (st : State) (k : nat) (d4 : list (string * pyval)) (r : Response) :
  json_reply (requests_post env (posts st) BASE_URL (discovery_data video_url))
             (VDict entries) ->
  dict_get "tasks" (VList []) entries = VList (map VDict (pre ++ v :: post)) ->
  Forall (fun w => py_eq_int (dict_get "bitrate" VNone w) BITRATE_192 = false) pre ->
  py_eq_int (dict_get "bitrate" VNone v) BITRATE_192 = true ->
  json_reply (requests_post env (S (posts st)) BASE_URL (creation_data v)) (VDict d2) ->
  py_truthy (dict_get "taskId" VNone d2) = true ->
  0 <= max_retries ->
  (k <= Z.to_nat max_retries)%nat ->
  (forall j, (j < k)%nat ->
     reply_status (requests_post env (posts st + 2 + j)%nat TASK_URL
                     (poll_data (dict_get "taskId" VNone d2))) = Some false) ->
  reply_status (requests_post env (posts st + 2 + k)%nat TASK_URL
                  (poll_data (dict_get "taskId" VNone d2))) = Some true ->
  json_reply (requests_post env (posts st + 2 + k + 1)%nat TASK_URL
                (poll_data (dict_get "taskId" VNone d2))) (VDict d4) ->
  py_truthy (dict_get "download" VNone d4) = true ->
  requests_get env (gets st) (dict_get "download" VNone d4) = inr r ->
  status_code r = 200 ->
  file_write env (writes st) filename (content r) = Written ->
  download_link env video_url filename max_retries st
  = (Ret true,
     mkState (trace st ++ task_requested video_url v
              ++ [EvPrint "Wait for conversion."]
              ++ pending_rounds (poll_data (dict_get "taskId" VNone d2)) k
              ++ [EvPost TASK_URL (poll_data (dict_get "taskId" VNone d2));
                  EvPrint "Downloading.";
                  EvPost TASK_URL (poll_data (dict_get "taskId" VNone d2));
                  EvGet (dict_get "download" VNone d4);
                  EvWrite filename (content r)])
             (<[filename := content r]> (fs st))).
Proof.
  intros H1 Ht Hpre Hv H2 Hid Hm Hk Hp Hf H4 Hu Hg Hs Hwr.
  rewrite (download_link_requests_task env video_url filename max_retries
             entries pre v post d2 st H1 Ht Hpre Hv H2), Hid.
  change (negb true) with false. cbv iota.
  rewrite (after_task_success env _ filename max_retries _ k d4 r).
  - simpl trace. simpl fs. now rewrite <- !app_assoc.
  - exact Hm.
  - exact Hk.
  - intros j Hj. rewrite posts_task_requested. now apply Hp.
  - now rewrite posts_task_requested.
  - now rewrite posts_task_requested.
  - exact Hu.
  - now rewrite gets_task_requested.
  - exact Hs.
  - now rewrite writes_task_requested.
Qed.

End DownloadLinkRuns.

(** ** When the file system changes *)

Lemma wos_ret {A} (ok : A -> bool) filename (a : A) :
  ok a = false -> writes_only_destination ok filename (ret a).
Proof. intros H st. left. split; [reflexivity|]. simpl. now intros ? [= <-]. Qed.

Lemma wos_raise {A} (ok : A -> bool) filename e :
  writes_only_destination ok filename (@raise A e).
Proof. intros st. left. split; [reflexivity|]. simpl. intros ? [=]. Qed.

Lemma wos_bind_quiet {A B} P (ok : B -> bool) filename (m : M A) (k : A -> M B) :
  quiet P m -> (forall a, writes_only_destination ok filename (k a)) ->
  writes_only_destination ok filename (bind m k).
Proof.
  intros Hq Hk st. unfold bind. destruct (Hq st) as (evs & E & _).
  destruct (m st) as [[a|e] s1]; simpl in E; subst s1.
  - exact (Hk a (mkState (trace st ++ evs) (fs st))).
  - left. split; [reflexivity|]. simpl. intros ? [=].
Qed.

Lemma wos_try_except {A B} P (ok : B -> bool) filename
  (body : M A) (handler : PyExn -> M B) (cont : A -> M B) :
  quiet P body ->
  (forall e, writes_only_destination ok filename (handler e)) ->
  (forall a, writes_only_destination ok filename (cont a)) ->
  writes_only_destination ok filename (try_except body handler cont).
Proof.
  intros Hq Hh Hc st. unfold try_except. destruct (Hq st) as (evs & E & _).
  destruct (body st) as [[a|e] s1]; simpl in E; subst s1.
  - exact (Hc a (mkState (trace st ++ evs) (fs st))).
  - exact (Hh e (mkState (trace st ++ evs) (fs st))).
Qed.

(** Wrapping the result, or logging after it, changes nothing. *)
Lemma wos_bind_ret {A B} (ok : A -> bool) (ok' : B -> bool) filename (m : M A) (f : A -> B) :
  (forall a, ok' (f a) = ok a) ->
  writes_only_destination ok filename m ->
  writes_only_destination ok' filename (bind m (fun a => ret (f a))).
Proof.
  intros Hf Hm st. unfold bind, ret.
  destruct (Hm st) as [(Hfs & Hno) | [(a & data & Hr & Hok & Hfs) | (e & data & Hr & Hfs)]].
  - left. destruct (m st) as [[a|e] s1]; simpl in *.
    + split; [exact Hfs|]. intros b [= <-]. rewrite Hf. now apply Hno.
    + split; [exact Hfs|]. intros ? [=].
  - right. left. exists (f a), data.
    destruct (m st) as [[a'|e] s1]; simpl in *; [|discriminate].
    injection Hr as ->. rewrite Hf. auto.
  - right. right. exists e, data.
    destruct (m st) as [[a'|e'] s1]; simpl in *; [discriminate|].
    injection Hr as ->. now split.
Qed.

Lemma wos_then_emit {A} (ok : A -> bool) filename (m : M A) (g : A -> M unit) :
  (forall a, exists ev, g a = emit ev) ->
  writes_only_destination ok filename m ->
  writes_only_destination ok filename (bind m (fun a => bind (g a) (fun _ => ret a))).
Proof.
  intros Hg Hm st. unfold bind.
  destruct (Hm st) as [(Hfs & Hno) | [(a & data & Hr & Hok & Hfs) | (e & data & Hr & Hfs)]].
  - left. destruct (m st) as [[a|e] s1]; simpl in *.
    + destruct (Hg a) as [ev Hev]. rewrite Hev. unfold bind, emit, ret. simpl.
      split; [exact Hfs|]. intros b Hb. injection Hb as Hb. subst b. now apply Hno.
    + split; [exact Hfs|]. intros ? [=].
  - right. left. exists a, data.
    destruct (m st) as [[a'|e] s1]; simpl in *; [|discriminate].
    injection Hr as Hr. subst a'. destruct (Hg a) as [ev Hev]. rewrite Hev.
    unfold bind, emit, ret. simpl. auto.
  - right. right. exists e, data.
    destruct (m st) as [[a'|e'] s1]; simpl in *; [discriminate|].
    injection Hr as ->. now split.
Qed.

Section WritesOnSuccess.

Variable env : Env.

Lemma quiet_YTMusic P : P EvYTMusic -> quiet P (YTMusic env).
Proof.
  intros H st. exists [EvYTMusic]. unfold YTMusic.
  destruct (ytmusic_init env _); simpl; (split; [reflexivity|now constructor]).
Qed.

Lemma quiet_ytmusic_search_call P query filter :
  P (EvSearch query filter) -> quiet P (ytmusic_search_call env query filter).
Proof.
  intros H st. exists [EvSearch query filter]. unfold ytmusic_search_call.
  destruct (ytmusic_search env _ query filter); simpl; (split; [reflexivity|now constructor]).
Qed.

Lemma quiet_requests_get P url : P (EvGet url) -> quiet P (do_requests_get env url).
Proof.
  intros H st. exists [EvGet url]. unfold do_requests_get.
  destruct (requests_get env _ url); simpl; (split; [reflexivity|now constructor]).
Qed.

Lemma wos_download_mp3 url filename :
  writes_only_destination (fun b : bool => b) filename (download_mp3 env url filename).
Proof.
  unfold download_mp3. apply wos_bind_quiet with (P := any_event).
  - apply quiet_requests_get. exact I.
  - intros r. destruct (status_code r =? 200).
    + intros st. unfold bind, write_file.
      destruct (file_write env _ filename (content r)) as [|e|e written]; simpl.
      * right. left. exists true, (content r). now repeat split.
      * left. split; [reflexivity|]. intros ? [=].
      * right. right. exists e, (take written (content r)). now split.
    + apply wos_bind_quiet with (P := any_event); [apply quiet_emit; exact I|].
      intros _. now apply wos_ret.
Qed.

Ltac wos :=
  repeat first
    [ apply wos_ret; reflexivity
    | apply wos_download_mp3
    | match goal with
      | |- writes_only_destination _ _ (if ?c then _ else _) => destruct c
      end
    | apply wos_bind_quiet with (P := any_event);
      [ first
          [ apply quiet_emit; exact I
          | apply quiet_py_get | apply quiet_py_getitem
          | apply quiet_search_video; intros; exact I
          | apply quiet_create_conversion_task; intros; exact I
          | apply quiet_wait_for_conversion_completion; intros; exact I
          | apply quiet_post_call; intros; exact I ]
      | intros ? ] ].

Lemma wos_download_link video_url filename max_retries :
  writes_only_destination (fun b : bool => b) filename
    (download_link env video_url filename max_retries).
Proof. unfold download_link, print. wos. Qed.

Lemma wos_search_and_download query filename :
  writes_only_destination succeeded filename (search_and_download env query filename).
Proof.
  unfold search_and_download, print. apply wos_try_except with (P := any_event).
  - apply quiet_bind; [apply quiet_YTMusic; exact I|].
    intros _. apply quiet_ytmusic_search_call. exact I.
  - intros e. wos.
  - intros [|first_result rest]; [wos|].
    apply wos_bind_quiet with (P := any_event); [apply quiet_py_get|]. intros video_id.
    destruct (negb (py_truthy video_id)); [wos|].
    do 10 (apply wos_bind_quiet with (P := any_event);
           [first [apply quiet_emit; exact I | apply quiet_py_getitem]|intros ?]).
    cbv zeta.
    apply wos_bind_ret with (ok := fun b : bool => b); [now intros [|]|].
    apply wos_download_link.
Qed.

End WritesOnSuccess.

(** X10. One run of [download_track] touches no path but its destination.
    Whenever it returns [False] or [None] the file system is as it was
    before.  When it returns [True] the only change is the binding of the
    destination path.  When it raises, either nothing changed or the only
    change is the binding of the destination path, which then holds what a
    failed write left there. *)
Theorem download_track_writes_only_destination
  (env : Env) (artists : list string) (title filename : string) :
  writes_only_destination succeeded filename (download_track env artists title filename).
Proof.
  unfold download_track, print.
  apply wos_bind_quiet with (P := any_event); [apply quiet_emit; exact I|]. intros _.
  apply wos_then_emit.
  - intros [[|]|]; eexists; reflexivity.
  - apply wos_search_and_download.
Qed.

(** ** search_and_download: the first hit and its fields *)

Lemma search_results_bound env query st results :
  ytmusic_init env (inits st) = None ->
  ytmusic_search env (searches (log EvYTMusic st)) query "songs" = inr results ->
  bind (YTMusic env) (fun _ => ytmusic_search_call env query "songs") st
  = (Ret results, mkState (trace st ++ [EvYTMusic; EvSearch query "songs"]) (fs st)).
Proof.
  intros Hi Hs. unfold inits, searches in *.
  unfold bind, YTMusic. rewrite Hi. unfold ytmusic_search_call. rewrite Hs.
  unfold log. simpl. now rewrite <- app_assoc.
Qed.

(** X11. A first hit without a usable "videoId" (absent, null or empty) ends
    the run with [None]: the conversion service is not called and nothing is
    fetched or written. *)
Theorem search_and_download_missing_video_id
  (env : Env) (query filename : string) (st : State)
  (d : list (string * pyval)) (rest : list pyval) :
  ytmusic_init env (inits st) = None ->
  ytmusic_search env (searches (log EvYTMusic st)) query "songs" = inr (VDict d :: rest) ->
  py_truthy (dict_get "videoId" VNone d) = false ->
  search_and_download env query filename st
  = (Ret None,
     mkState (trace st ++ [EvYTMusic; EvSearch query "songs";
                           EvPrint "Video ID not found in the search results."])
             (fs st)).
Proof.
  intros Hi Hs Hv. unfold search_and_download, try_except.
  rewrite (search_results_bound _ _ _ _ Hi Hs).
  rewrite (bind_returns _ _ _ _ _ (py_get_dict d "videoId" VNone _)), Hv.
  unfold bind, print, emit, ret, log. simpl. now rewrite <- app_assoc.
Qed.

(** X12. The progress report reads [first_result['title']] with a subscript:
    a first hit that has a video id but no "title" makes
    [search_and_download] raise [KeyError] right after the first separator
    line, before the conversion service is contacted. *)
Theorem search_and_download_title_required
  (env : Env) (query filename : string) (st : State)
  (d : list (string * pyval)) (rest : list pyval) :
  ytmusic_init env (inits st) = None ->
  ytmusic_search env (searches (log EvYTMusic st)) query "songs" = inr (VDict d :: rest) ->
  py_truthy (dict_get "videoId" VNone d) = true ->
  dict_lookup "title" d = None ->
  search_and_download env query filename st
  = (Raise (mkExn KeyError "'title'"),
     mkState (trace st ++ [EvYTMusic; EvSearch query "songs"; EvPrint "-------------"])
             (fs st)).
Proof.
  intros Hi Hs Hv Ht. unfold search_and_download, try_except.
  rewrite (search_results_bound _ _ _ _ Hi Hs).
  rewrite (bind_returns _ _ _ _ _ (py_get_dict d "videoId" VNone _)), Hv.
  change (negb true) with false. cbv iota. rewrite bind_print.
  unfold bind at 1. unfold py_getitem. rewrite Ht.
  unfold raise, log. simpl. now rewrite <- app_assoc.
Qed.

(** X13. Likewise [first_result['album']['name']]: a first hit whose "album"
    is [None] makes [search_and_download] raise [TypeError] after the title
    line; no request is made for such a song. *)
Theorem search_and_download_album_required
  (env : Env) (query filename : string) (st : State)
  (d : list (string * pyval)) (rest : list pyval) (title : pyval) :
  ytmusic_init env (inits st) = None ->
  ytmusic_search env (searches (log EvYTMusic st)) query "songs" = inr (VDict d :: rest) ->
  py_truthy (dict_get "videoId" VNone d) = true ->
  dict_lookup "title" d = Some title ->
  dict_lookup "album" d = Some VNone ->
  search_and_download env query filename st
  = (Raise (mkExn TypeError "'NoneType' object is not subscriptable"),
     mkState (trace st ++ [EvYTMusic; EvSearch query "songs"; EvPrint "-------------";
                           EvPrint ("Title:   " +:+ py_str env title)])
             (fs st)).
Proof.
  intros Hi Hs Hv Ht Ha. unfold search_and_download, try_except.
  rewrite (search_results_bound _ _ _ _ Hi Hs).
  rewrite (bind_returns _ _ _ _ _ (py_get_dict d "videoId" VNone _)), Hv.
  change (negb true) with false. cbv iota. rewrite bind_print.
  unfold bind at 1. unfold py_getitem at 1. rewrite Ht. unfold ret at 1.
  rewrite bind_print.
  unfold bind at 1. unfold py_getitem at 1. rewrite Ha. unfold ret at 1.
  unfold bind at 1. unfold py_getitem at 1. simpl py_type_name.
  unfold raise, log. simpl. now rewrite <- !app_assoc.
Qed.

Lemma bind_ext {A B} (m m' : M A) (k k' : A -> M B) st :
  m st = m' st -> (forall a s, k a s = k' a s) -> bind m k st = bind m' k' st.
Proof.
  intros Hm Hk. unfold bind. rewrite Hm.
  destruct (m' st) as [[a|e] s]; [apply Hk|reflexivity].
Qed.

Section OtherSearch.

Variable env : Env.
Variable search : nat -> string -> string -> PyExn + list pyval.

Lemma post_call_with_search data is_task st :
  post_call (with_search env search) data is_task st = post_call env data is_task st.
Proof. reflexivity. Qed.

Lemma create_conversion_task_loop_with_search items bitrate : forall st,
  create_conversion_task_loop (with_search env search) items bitrate st
  = create_conversion_task_loop env items bitrate st.
Proof.
  induction items as [|task rest IH]; intros st; [reflexivity|].
  simpl. apply bind_ext; [reflexivity|]. intros b s.
  destruct (py_eq_int b bitrate); [reflexivity|apply IH].
Qed.

Lemma wait_loop_with_search data n : forall st,
  wait_loop (with_search env search) data n st = wait_loop env data n st.
Proof.
  induction n as [|n IH]; intros st; [reflexivity|].
  simpl. apply bind_ext; [reflexivity|]. intros r s.
  apply bind_ext; [reflexivity|]. intros status s'.
  destruct (py_eq_str status "finished"); [reflexivity|].
  apply bind_ext; [reflexivity|]. intros _ s1.
  apply bind_ext; [reflexivity|]. intros _ s2. apply IH.
Qed.

Lemma download_link_with_search video_url filename max_retries st :
  download_link (with_search env search) video_url filename max_retries st
  = download_link env video_url filename max_retries st.
Proof.
  unfold download_link.
  apply bind_ext; [reflexivity|]. intros _ s0.
  apply bind_ext; [reflexivity|]. intros tasks s1.
  apply bind_ext.
  { unfold create_conversion_task. apply bind_ext; [reflexivity|]. intros seq s.
    apply bind_ext; [reflexivity|]. intros items s'.
    apply create_conversion_task_loop_with_search. }
  intros task_id s2. destruct (negb (py_truthy task_id)); [reflexivity|].
  apply bind_ext; [reflexivity|]. intros _ s3.
  apply bind_ext; [apply wait_loop_with_search|]. intros completed s4.
  reflexivity.
Qed.

End OtherSearch.

(** X14. Only the first hit counts: the run on a result list [first :: rest]
    is, effect for effect, the run in the world where the search returned
    [first] alone.  The later hits are never inspected, ranked or tried. *)
Theorem search_and_download_uses_first_hit
  (env : Env) (query filename : string) (st : State) (first : pyval) (rest : list pyval) :
  ytmusic_search env (searches (log EvYTMusic st)) query "songs" = inr (first :: rest) ->
  search_and_download env query filename st
  = search_and_download (with_search env (fun _ _ _ => inr [first])) query filename st.
Proof.
  intros Hs. unfold search_and_download, try_except.
  destruct (ytmusic_init env (inits st)) as [e|] eqn:Hi.
  - assert (Hb : forall env', ytmusic_init env' (inits st) = Some e ->
              bind (YTMusic env') (fun _ => ytmusic_search_call env' query "songs") st
              = (Raise e, log EvYTMusic st)).
    { intros env' H. unfold bind, YTMusic. unfold inits in H. now rewrite H. }
    rewrite (Hb env Hi), (Hb (with_search env _) Hi). reflexivity.
  - rewrite (search_results_bound env _ _ _ Hi Hs).
    rewrite (search_results_bound (with_search env _) query st [first] Hi eq_refl).
    apply bind_ext; [reflexivity|]. intros video_id s.
    destruct (negb (py_truthy video_id)); [reflexivity|].
    do 10 (apply bind_ext; [reflexivity|]; intros ? ?).
    apply bind_ext; [|reflexivity].
    symmetry. apply download_link_with_search.
Qed.

(** ** The batch driver and the action *)

Lemma process_tracks_nothing_to_do env tmp ts : forall st,
  Forall (fun t => eligible t = false) ts ->
  process_tracks env tmp ts st = (Ret tt, st).
Proof.
  induction ts as [|track rest IH]; intros st H; [reflexivity|].
  inversion H as [|? ? Ht Hrest]; subst. simpl.
  unfold eligible in Ht.
  destruct (track_artists track) as [artists|]; [|now apply IH].
  rewrite Ht. now apply IH.
Qed.

(** X15. An album in which every track already has a file, or lacks artist
    metadata, is left alone: no search, no request, no [add_files].  The
    temporary directory is created all the same, and that is the only
    effect. *)
Theorem process_album_nothing_to_download (env : Env) (album : Album) (st : State) :
  Forall (fun t => eligible t = false) (tracks album) ->
  process_album env (AlbumObject album) st = (Ret tt, log EvMkdtemp st).
Proof.
  intros H. unfold process_album, tempfile_mkdtemp. unfold bind.
  now apply process_tracks_nothing_to_do.
Qed.

(** X16. [callback] passes over everything that is not an album: the run on
    a selection is the run on its albums, in the same order; an object of
    another kind causes no effect, not even a temporary directory. *)
Theorem callback_skips_other_objects (env : Env) (objs : list PyObject) (st : State) :
  callback env objs st = callback env (List.filter is_album objs) st.
Proof.
  revert st. induction objs as [|obj rest IH]; intros st; [reflexivity|].
  destruct obj as [album|]; simpl.
  - apply bind_ext; [reflexivity|]. intros _ s. apply IH.
  - unfold bind, ret. apply IH.
Qed.

Lemma bind_returned {A B} (m : M A) (k : A -> M B) st b st' :
  bind m k st = (Ret b, st') ->
  exists a s, m st = (Ret a, s) /\ k a s = (Ret b, st').
Proof.
  unfold bind. destruct (m st) as [[a|e] s]; [eauto|discriminate].
Qed.

(** X17. [callback] has no handler either: when the albums before have been
    processed and the processing of one album raises, [callback] ends with
    that exception in the state the album left, and the albums after it are
    not processed. *)
Theorem callback_stops_at_exception
  (env : Env) (before : list PyObject) (obj : PyObject) (after : list PyObject)
  (st s s' : State) (e : PyExn) :
  callback env before st = (Ret tt, s) ->
  process_album env obj s = (Raise e, s') ->
  callback env (before ++ obj :: after) st = (Raise e, s').
Proof.
  revert st. induction before as [|o rest IH]; intros st Hb Hp.
  - simpl in Hb. injection Hb as <-. simpl. now rewrite (bind_raises _ _ _ _ _ Hp).
  - simpl in Hb. apply bind_returned in Hb as ([] & s0 & Ho & Hrest).
    simpl. rewrite (bind_returns _ _ _ _ _ Ho). now apply IH.
Qed.

Lemma starts_with_slash_append a b :
  starts_with_slash a = true -> starts_with_slash (a +:+ b) = true.
Proof. destruct a as [|c a]; [discriminate|]. simpl. auto. Qed.

(** X18. The destination is [os.path.join(temp_dir, title + ".mp3")], and a
    title that begins with a slash makes the join drop the temporary
    directory: the file is then written to, and attached from, the path
    [title + ".mp3"] itself. *)
Theorem track_filename_rooted_title (temp_dir : string) (track : Track) :
  starts_with_slash (track_title track) = true ->
  track_filename temp_dir track = track_title track +:+ ".mp3".
Proof.
  intros H. unfold track_filename, os_path_join.
  now rewrite (starts_with_slash_append _ ".mp3" H).
Qed.

(** ** These properties at concrete inputs *)

Ltac json_reply_here :=
  eexists; split; [reflexivity|split; [simpl; lia|reflexivity]].

Lemma post_call_http_error_witness :
  exists msg,
    post_call env_500 (discovery_data watch_url) false st0
    = (Raise (mkExn HTTPError msg), log (EvPost BASE_URL (discovery_data watch_url)) st0).
Proof.
  apply (post_call_http_error env_500 (discovery_data watch_url) false st0
           (mkResponse 500 "Internal Server Error" None [])).
  - reflexivity.
  - simpl. lia.
Defined.

Lemma post_call_returns_only_json_witness :
  exists r,
    requests_post env_A (posts st0) BASE_URL (discovery_data watch_url) = inr r
    /\ ~ (400 <= status_code r < 600)
    /\ json_body r = Some (VDict [("tasks", VList [VDict (variant "h1" 192)])])
    /\ log (EvPost BASE_URL (discovery_data watch_url)) st0
       = log (EvPost BASE_URL (discovery_data watch_url)) st0.
Proof.
  apply (post_call_returns_only_json env_A (discovery_data watch_url) false st0
           (log (EvPost BASE_URL (discovery_data watch_url)) st0)
           (VDict [("tasks", VList [VDict (variant "h1" 192)])])).
  reflexivity.
Defined.

Lemma wait_for_conversion_completion_propagates_error_witness :
  fst (wait_for_conversion_completion env_drop (VStr "t1") 3 st0) = Raise timeout_error.
Proof.
  rewrite (wait_for_conversion_completion_propagates_error env_drop (VStr "t1") 3 st0
             1 timeout_error).
  - reflexivity.
  - lia.
  - simpl. lia.
  - intros j Hj. assert (j = 0%nat) as -> by lia. reflexivity.
  - reflexivity.
Defined.

Lemma wait_for_conversion_completion_sleeps_before_giving_up_witness :
  last (trace (snd (wait_for_conversion_completion env_empty (VStr "t1") 1 st0)))
  = Some (EvSleep 1).
Proof.
  apply (wait_for_conversion_completion_sleeps_before_giving_up env_empty (VStr "t1") 1 st0).
  - lia.
  - intros i Hi. reflexivity.
Defined.

Lemma download_link_no_variant_witness :
  fst (download_link env_B watch_url "f.mp3" 10 st0) = Ret false
  /\ posts (snd (download_link env_B watch_url "f.mp3" 10 st0)) = 1%nat.
Proof.
  rewrite (download_link_no_variant env_B watch_url "f.mp3" 10 st0
             [("tasks", VList (map VDict [variant "h0" 128; variant "h2" 320]))]
             [variant "h0" 128; variant "h2" 320]).
  - split; reflexivity.
  - json_reply_here.
  - reflexivity.
  - repeat constructor.
Defined.

Lemma download_link_no_task_id_witness :
  fst (download_link env_no_task_id watch_url "f.mp3" 10 st0) = Ret false
  /\ posts (snd (download_link env_no_task_id watch_url "f.mp3" 10 st0)) = 2%nat.
Proof.
  rewrite (download_link_no_task_id env_no_task_id watch_url "f.mp3" 10
             [("tasks", VList (map VDict [variant "h1" 192]))]
             [] (variant "h1" 192) [] [("error", VStr "busy")] st0).
  - split; reflexivity.
  - json_reply_here.
  - reflexivity.
  - constructor.
  - reflexivity.
  - json_reply_here.
  - reflexivity.
Defined.

Lemma download_link_times_out_witness :
  fst (download_link env_C watch_url "f.mp3" 2 st0) = Ret false
  /\ posts (snd (download_link env_C watch_url "f.mp3" 2 st0)) = 5%nat
  /\ fs (snd (download_link env_C watch_url "f.mp3" 2 st0)) = ∅.
Proof.
  rewrite (download_link_times_out env_C watch_url "f.mp3" 2
             [("tasks", VList (map VDict [variant "h1" 192]))]
             [] (variant "h1" 192) [] [("taskId", VStr "t1")] st0).
  - repeat split; reflexivity.
  - json_reply_here.
  - reflexivity.
  - constructor.
  - reflexivity.
  - json_reply_here.
  - reflexivity.
  - lia.
  - intros i Hi. reflexivity.
Defined.

Lemma download_link_success_witness :
  fst (download_link env_A watch_url "f.mp3" 10 st0) = Ret true
  /\ fs (snd (download_link env_A watch_url "f.mp3" 10 st0)) !! "f.mp3" = Some mp3.
Proof.
  rewrite (download_link_success env_A watch_url "f.mp3" 10
             [("tasks", VList (map VDict [variant "h1" 192]))]
             [] (variant "h1" 192) [] [("taskId", VStr "t1")] st0 1
             [("status", VStr "finished"); ("download", VStr "https://cdn.example/f.mp3")]
             (mkResponse 200 "OK" None mp3)).
  - split; [reflexivity|]. apply lookup_insert_eq.
  - json_reply_here.
  - reflexivity.
  - constructor.
  - reflexivity.
  - json_reply_here.
  - reflexivity.
  - lia.
  - simpl. lia.
  - intros j Hj. assert (j = 0%nat) as -> by lia. reflexivity.
  - reflexivity.
  - json_reply_here.
  - reflexivity.
  - reflexivity.
  - reflexivity.
  - reflexivity.
Defined.

Lemma search_and_download_missing_video_id_witness :
  fst (search_and_download (env_hit hit_no_video_id) "Artist X Song Y" "f.mp3" st0) = Ret None.
Proof.
  rewrite (search_and_download_missing_video_id (env_hit hit_no_video_id)
             "Artist X Song Y" "f.mp3" st0 [("title", VStr "Song Y")] [hit]).
  - reflexivity.
  - reflexivity.
  - reflexivity.
  - reflexivity.
Defined.

Lemma search_and_download_title_required_witness :
  fst (search_and_download (env_hit hit_no_title) "Artist X Song Y" "f.mp3" st0)
  = Raise (mkExn KeyError "'title'").
Proof.
  rewrite (search_and_download_title_required (env_hit hit_no_title)
             "Artist X Song Y" "f.mp3" st0 [("videoId", VStr "abc123")] [hit]).
  - reflexivity.
  - reflexivity.
  - reflexivity.
  - reflexivity.
  - reflexivity.
Defined.

Lemma search_and_download_album_required_witness :
  fst (search_and_download (env_hit hit_no_album) "Artist X Song Y" "f.mp3" st0)
  = Raise (mkExn TypeError "'NoneType' object is not subscriptable").
Proof.
  rewrite (search_and_download_album_required (env_hit hit_no_album)
             "Artist X Song Y" "f.mp3" st0
             [("videoId", VStr "abc123"); ("title", VStr "Song Y"); ("album", VNone)]
             [hit] (VStr "Song Y")).
  - reflexivity.
  - reflexivity.
  - reflexivity.
  - reflexivity.
  - reflexivity.
  - reflexivity.
Defined.

Lemma search_and_download_uses_first_hit_witness :
  search_and_download (env_hit hit_no_album) "Artist X Song Y" "f.mp3" st0
  = search_and_download (with_search (env_hit hit_no_album) (fun _ _ _ => inr [hit_no_album]))
      "Artist X Song Y" "f.mp3" st0.
Proof.
  apply (search_and_download_uses_first_hit (env_hit hit_no_album)
           "Artist X Song Y" "f.mp3" st0 hit_no_album [hit]).
  reflexivity.
Defined.

Lemma process_album_nothing_to_download_witness :
  process_album env_A (AlbumObject album_done) st0 = (Ret tt, log EvMkdtemp st0).
Proof.
  apply (process_album_nothing_to_download env_A album_done st0).
  repeat constructor.
Defined.

Lemma callback_stops_at_exception_witness :
  fst (callback env_500 [OtherObject; AlbumObject album_done; AlbumObject album_ab;
                         AlbumObject album_done] st0)
  = Raise (mkExn HTTPError
             "500 Server Error: Internal Server Error for url: https://music.yt2api.com/api/json").
Proof.
  change [OtherObject; AlbumObject album_done; AlbumObject album_ab; AlbumObject album_done]
    with ([OtherObject; AlbumObject album_done]
          ++ AlbumObject album_ab :: [AlbumObject album_done]).
  erewrite (callback_stops_at_exception env_500 [OtherObject; AlbumObject album_done]
              (AlbumObject album_ab) [AlbumObject album_done] st0).
  - reflexivity.
  - reflexivity.
  - lazy. reflexivity.
Defined.

Lemma track_filename_rooted_title_witness :
  track_filename "/tmp/tmpab12" track_rooted = "/var/tmp/x.mp3".
Proof.
  apply (track_filename_rooted_title "/tmp/tmpab12" track_rooted). reflexivity.
Defined.

(** A fetch answered 200 whose destination cannot be opened: the [OSError]
    leaves [download_mp3] and no file appears; when the write fails midway,
    the destination keeps the bytes written so far. *)
Example download_mp3_unwritable :
  download_mp3 env_unwritable (VStr "https://cdn.example/f.mp3") "nodir/f.mp3" st0
  = (Raise no_such_directory,
     mkState [EvGet (VStr "https://cdn.example/f.mp3"); EvWrite "nodir/f.mp3" mp3] ∅).
Proof. reflexivity. Qed.

Example download_mp3_disk_full :
  fst (download_mp3 env_disk_full (VStr "https://cdn.example/f.mp3") "f.mp3" st0)
  = Raise disk_full
  /\ fs (snd (download_mp3 env_disk_full (VStr "https://cdn.example/f.mp3") "f.mp3" st0))
     !! "f.mp3" = Some [Byte.x49; Byte.x44].
Proof. split; [reflexivity|]. vm_compute. reflexivity. Qed.
